(** * check.py: run a Java CLI program, feed stdin, regex-check stdout

    A shallow embedding of [src/check.py] and the properties of its
    process runner ([run_java]), matcher ([stdout_matches]) and
    reporter ([main]).

    Python values are modelled as the code has them: a [str] is a
    sequence of Unicode code points, a [bytes] object a sequence of
    octets, exceptions are an explicit error result, and the calls
    that leave the program ([subprocess.run], [print]) are events of
    an explicit trace. *)

From Stdlib Require Import ZArith List Bool Lia String Ascii.
From Stdlib Require Import DecimalString.
Import ListNotations.

Local Open Scope Z_scope.

Set Implicit Arguments.

(** ** Python strings and bytes *)

(** A [str]: the sequence of its code points. *)
Definition pystr := list Z.

(** A [bytes] object: octets, each in [0, 255]. *)
Definition pybytes := list Z.

(** An ASCII literal of the source, as a [str]. *)
Definition lit (s : string) : pystr :=
  map (fun a => Z.of_N (N_of_ascii a)) (list_ascii_of_string s).

Definition is_ascii (c : Z) : Prop := 0 <= c < 128.

Definition BACKSLASH : Z := 92.
Definition MAX_UNICODE : Z := 1114111.

(** ** Exceptions and results *)

(** The exceptions that can cross this program.  [TimeoutExpired]
    carries the [stdout] and [stderr] attributes of the exception
    object (see [pyval] below), the [OSError] subclasses carry
    [str(e)]. *)
Inductive pyval : Type :=
  | VNone
  | VStr (s : pystr)
  | VBytes (b : pybytes).

Inductive exn : Type :=
  | TimeoutExpired (out err : pyval)
  | FileNotFoundError (msg : pystr)
  | PermissionError (msg : pystr)
  | OSError (msg : pystr)
  | UnicodeDecodeError
  | UnicodeEncodeError
  | ReError
  | TypeError.

Inductive result (A : Type) : Type :=
  | Ok (a : A)
  | Raise (e : exn).
Arguments Ok {A} a.
Arguments Raise {A} e.

Definition rbind {A B} (m : result A) (k : A -> result B) : result B :=
  match m with
  | Ok a => k a
  | Raise e => Raise e
  end.

(** Truthiness, and [x or s] for the empty string [s]. *)
Definition truthy (v : pyval) : bool :=
  match v with
  | VNone => false
  | VStr [] | VBytes [] => false
  | VStr (_ :: _) | VBytes (_ :: _) => true
  end.

Definition or_empty (v : pyval) : pyval :=
  if truthy v then v else VStr [].

(** ** [str.encode("utf-8")] *)

Definition is_surrogate (c : Z) : bool := (55296 <=? c) && (c <=? 57343).

Definition utf8_encode_char (c : Z) : result pybytes :=
  if c <? 0 then Raise UnicodeEncodeError
  else if c <? 128 then Ok [c]
  else if c <? 2048 then
    Ok [Z.lor 192 (Z.shiftr c 6); Z.lor 128 (Z.land c 63)]
  else if c <? 65536 then
    if is_surrogate c then Raise UnicodeEncodeError
    else Ok [Z.lor 224 (Z.shiftr c 12);
             Z.lor 128 (Z.land (Z.shiftr c 6) 63);
             Z.lor 128 (Z.land c 63)]
  else if c <=? MAX_UNICODE then
    Ok [Z.lor 240 (Z.shiftr c 18);
        Z.lor 128 (Z.land (Z.shiftr c 12) 63);
        Z.lor 128 (Z.land (Z.shiftr c 6) 63);
        Z.lor 128 (Z.land c 63)]
  else Raise UnicodeEncodeError.

Fixpoint utf8_encode (s : pystr) : result pybytes :=
  match s with
  | [] => Ok []
  | c :: s' =>
      rbind (utf8_encode_char c) (fun bs =>
      rbind (utf8_encode s') (fun rest => Ok (bs ++ rest)))
  end.

(** ** [bytes.decode("unicode_escape")]

    The codec of CPython, with strict error handling: a byte other than a
    backslash is taken as the Latin-1 code point of the same value; a
    backslash starts an escape.  The table of character names that
    [\N{...}] consults is not part of the program and is taken as a
    function. *)

Definition hexval (c : Z) : option Z :=
  if (48 <=? c) && (c <=? 57) then Some (c - 48)
  else if (97 <=? c) && (c <=? 102) then Some (c - 87)
  else if (65 <=? c) && (c <=? 70) then Some (c - 55)
  else None.

Definition is_octal (c : Z) : bool := (48 <=? c) && (c <=? 55).

(** The escapes of one character after the backslash that stand for
    one character: backslash, quote, double quote, [\a], [\b], [\f],
    [\n], [\r], [\t], [\v]. *)
Definition simple_escape (c : Z) : option Z :=
  if c =? 92 then Some 92
  else if c =? 39 then Some 39
  else if c =? 34 then Some 34
  else if c =? 98 then Some 8
  else if c =? 102 then Some 12
  else if c =? 116 then Some 9
  else if c =? 110 then Some 10
  else if c =? 114 then Some 13
  else if c =? 118 then Some 11
  else if c =? 97 then Some 7
  else None.

Section UnicodeEscape.

  (** [unicodedata]'s lookup of a character name. *)
Variable ucd_lookup : pybytes -> option Z.

Definition cons_ok (c : Z) (r : result pystr) : result pystr :=
    rbind r (fun d => Ok (c :: d)).

Fixpoint unicode_escape_decode (s : pybytes) : result pystr :=
    match s with
    | [] => Ok []
    | c :: s1 =>
        if negb (c =? BACKSLASH) then cons_ok c (unicode_escape_decode s1)
        else
          match s1 with
          | [] => Raise UnicodeDecodeError          (* \ at end of string *)
          | e :: s2 =>
              match simple_escape e with
              | Some x => cons_ok x (unicode_escape_decode s2)
              | None =>
                  if e =? 10 then unicode_escape_decode s2   (* \<newline> *)
                  else if is_octal e then
                    (* \ooo: up to three octal digits *)
                    match s2 with
                    | o2 :: s3 =>
                        if is_octal o2 then
                          match s3 with
                          | o3 :: s4 =>
                              if is_octal o3 then
                                cons_ok ((e - 48) * 64 + (o2 - 48) * 8
                                         + (o3 - 48))
                                        (unicode_escape_decode s4)
                              else cons_ok ((e - 48) * 8 + (o2 - 48))
                                           (unicode_escape_decode s3)
                          | [] => Ok [(e - 48) * 8 + (o2 - 48)]
                          end
                        else cons_ok (e - 48) (unicode_escape_decode s2)
                    | [] => Ok [e - 48]
                    end
                  else if (e =? 120) || (e =? 117) || (e =? 85) then
                    (* \xXX, \uXXXX, \UXXXXXXXX *)
                    (fix hexescape (count : nat) (ch : Z) (t : pybytes)
                         {struct t} : result pystr :=
                       match count with
                       | O =>
                           if ch >? MAX_UNICODE then Raise UnicodeDecodeError
                           else cons_ok ch (unicode_escape_decode t)
                       | S count' =>
                           match t with
                           | [] => Raise UnicodeDecodeError   (* truncated *)
                           | d :: t' =>
                               match hexval d with
                               | Some v => hexescape count' (ch * 16 + v) t'
                               | None => Raise UnicodeDecodeError
                               end
                           end
                       end)
                      (if e =? 120 then 2%nat
                       else if e =? 117 then 4%nat else 8%nat)
                      0 s2
                  else if e =? 78 then
                    (* \N{name} *)
                    match s2 with
                    | 123 :: s3 =>
                        (fix scan_name (name : pybytes) (t : pybytes)
                             {struct t} : result pystr :=
                           match t with
                           | [] => Raise UnicodeDecodeError   (* malformed *)
                           | d :: t' =>
                               if d =? 125 then
                                 match name with
                                 | [] => Raise UnicodeDecodeError
                                 | _ :: _ =>
                                     match ucd_lookup (rev name) with
                                     | Some ch =>
                                         if ch >? MAX_UNICODE
                                         then Raise UnicodeDecodeError
                                         else cons_ok ch
                                                (unicode_escape_decode t')
                                     | None => Raise UnicodeDecodeError
                                     end
                                 end
                               else scan_name (d :: name) t'
                           end) [] s3
                    | _ => Raise UnicodeDecodeError
                    end
                  else
                    (* an unrecognised escape is left in the text *)
                    cons_ok BACKSLASH (cons_ok e (unicode_escape_decode s2))
              end
          end
    end.

  (** [args.input.encode("utf-8").decode("unicode_escape")] *)
Definition decode_input (input : pystr) : result pystr :=
    rbind (utf8_encode input) unicode_escape_decode.

End UnicodeEscape.

(** The decoding in the words of the specification, with a table of
    its own: the character after the backslash, and the real
    character that the pair stands for.  The specification names
    [\n], [\t], [\r] and the doubled backslash; the other pairs
    are the remaining one-character escapes of a string literal. *)
Definition spec_escape_table : list (Z * Z) :=
  [ (110, 10);    (* \n: line feed *)
    (116, 9);     (* \t: horizontal tab *)
    (114, 13);    (* \r: carriage return *)
    (92, 92);     (* a doubled backslash: one backslash *)
    (39, 39);     (* an escaped quote *)
    (34, 34);     (* an escaped double quote *)
    (97, 7);      (* \a: bell *)
    (98, 8);      (* \b: backspace *)
    (102, 12);    (* \f: form feed *)
    (118, 11) ].  (* \v: vertical tab *)

Fixpoint assoc_z (k : Z) (l : list (Z * Z)) : option Z :=
  match l with
  | [] => None
  | (k', v) :: l' => if k =? k' then Some v else assoc_z k l'
  end.

Definition spec_escape (e : Z) : option Z := assoc_z e spec_escape_table.

(** Every two-character sequence of a backslash and a character of the
    table becomes the character it stands for, and every other
    character stays.  It is undefined on a text with a backslash that
    starts no such sequence. *)
Fixpoint spec_decode_escapes (s : pystr) : option pystr :=
  match s with
  | [] => Some []
  | c :: s1 =>
      if c =? BACKSLASH then
        match s1 with
        | [] => None
        | e :: s2 =>
            match spec_escape e with
            | Some x => option_map (cons x) (spec_decode_escapes s2)
            | None => None
            end
        end
      else option_map (cons c) (spec_decode_escapes s1)
  end.

(** ** Formatting: [str(x)] and f-string fields *)

Definition NEWLINE : Z := 10.

(** The decimal text of an [int]. *)
Definition int_str (n : Z) : pystr :=
  lit (NilZero.string_of_int (Z.to_int n)).

Definition hexdigit (n : Z) : Z :=
  if n <? 10 then 48 + n else 87 + n.

Definition mem_z (c : Z) (s : list Z) : bool := existsb (Z.eqb c) s.

(** [repr] of a [bytes] object, which is what [str] of it gives. *)
Definition bytes_repr_char (quote c : Z) : pystr :=
  if (c =? quote) || (c =? BACKSLASH) then [BACKSLASH; c]
  else if c =? 9 then [BACKSLASH; 116]
  else if c =? 10 then [BACKSLASH; 110]
  else if c =? 13 then [BACKSLASH; 114]
  else if (c <? 32) || (127 <=? c) then
    [BACKSLASH; 120; hexdigit (Z.shiftr c 4); hexdigit (Z.land c 15)]
  else [c].

Definition bytes_repr (b : pybytes) : pystr :=
  let quote := if mem_z 39 b && negb (mem_z 34 b) then 34 else 39 in
  98 :: quote :: flat_map (bytes_repr_char quote) b ++ [quote].

Definition py_str (v : pyval) : pystr :=
  match v with
  | VNone => lit "None"
  | VStr s => s
  | VBytes b => bytes_repr b
  end.

(** ** The [re] module, as far as the program uses it

    [re.search(pattern, string, flags)] compiles the pattern and scans
    the start positions [0 .. len(string)] in order for the first one
    at which the compiled pattern matches.  The compiler and the
    anchored matcher belong to the library and are an interface here;
    a reference engine for a fragment of the syntax follows below. *)

Definition IGNORECASE : Z := 2.
Definition DOTALL : Z := 16.

Class SreEngine : Type := {
  sre_pattern : Type;
  (** [re.compile(pattern, flags)]; raises [re.error] *)
  sre_compile : pystr -> Z -> result sre_pattern;
  (** [p.match(string, pos)]: the end of the match that starts at [pos] *)
  sre_match : sre_pattern -> pystr -> nat -> option nat
}.

Section Re.
Context {E : SreEngine}.

  (** Scan [n] start positions from [pos] on. *)
Fixpoint search_from (p : sre_pattern) (text : pystr) (pos n : nat)
    : option (nat * nat) :=
    match n with
    | O => None
    | S n' =>
        match sre_match p text pos with
        | Some e => Some (pos, e)
        | None => search_from p text (S pos) n'
        end
    end.

Definition re_search (pattern : pystr) (string : pyval) (flags : Z)
    : result (option (nat * nat)) :=
    rbind (sre_compile pattern flags) (fun p =>
      match string with
      | VStr text => Ok (search_from p text 0 (S (List.length text)))
      | _ => Raise TypeError
      end).

  (** [p.fullmatch(string)], for comparison with the search. *)
Definition re_fullmatch (pattern : pystr) (string : pyval) (flags : Z)
    : result bool :=
    rbind (sre_compile pattern flags) (fun p =>
      match string with
      | VStr text =>
          Ok (match sre_match p text 0 with
              | Some e => Nat.eqb e (List.length text)
              | None => false
              end)
      | _ => Raise TypeError
      end).

  (** [stdout_matches] of the source *)
Definition stdout_matches (stdout : pyval) (pattern : pystr) (flags : Z)
    : result bool :=
    rbind (re_search pattern stdout flags) (fun m =>
      Ok (match m with Some _ => true | None => false end)).

End Re.

(** ** The process runner *)

Record RunResult : Type := {
  ok : bool;
  returncode : Z;
  stdout : pyval;
  stderr : pystr
}.

(** What [subprocess.run] returns when the child terminates; with
    [text=True] both streams are [str]. *)
Record CompletedProcess : Type := {
  cp_returncode : Z;
  cp_stdout : pystr;
  cp_stderr : pystr
}.

(** The operating system and the interpreter's float type: the
    timeout is a [float] of which the program only uses the text that
    an f-string gives for it. *)
Class Platform : Type := {
  pyfloat : Type;
  float_str : pyfloat -> pystr;
  ucd_lookup : pybytes -> option Z;
  (** [subprocess.run(cmd, input=..., capture_output=True, text=True,
      encoding=..., timeout=..., check=False)] *)
  subprocess_run : list pystr -> pystr -> pyfloat -> result CompletedProcess
}.

Section Runner.
Context {P : Platform}.

Definition run_java (java_cmd : list pystr) (stdin_text : pystr)
             (timeout_s : pyfloat) : result RunResult :=
    match subprocess_run java_cmd stdin_text timeout_s with
    | Ok cp =>
        Ok {| ok := (cp_returncode cp =? 0);
              returncode := cp_returncode cp;
              stdout := VStr (cp_stdout cp);
              stderr := cp_stderr cp |}
    | Raise (TimeoutExpired e_stdout e_stderr) =>
        Ok {| ok := false;
              returncode := 124;
              stdout := or_empty e_stdout;
              stderr := lit "Timed out after " ++ float_str timeout_s
                        ++ lit "s" ++ [NEWLINE] ++ py_str (or_empty e_stderr) |}
    | Raise (FileNotFoundError e) =>
        Ok {| ok := false;
              returncode := 127;
              stdout := VStr [];
              stderr := lit "Command not found: " ++ e |}
    | Raise e => Raise e
    end.

End Runner.

(** ** The reporter: [main]

    Effects are a trace of events in program order, with the result or
    the exception that ends the run. *)

Inductive event {P : Platform} : Type :=
  | Spawn (cmd : list pystr) (stdin : pystr) (timeout : pyfloat)
  | PrintOut (line : pystr)
  | PrintErr (line : pystr).

Definition py {P : Platform} (A : Type) : Type := (list event * result A)%type.

Definition ret {P : Platform} {A} (a : A) : py A := ([], Ok a).

Definition bind {P : Platform} {A B} (m : py A) (k : A -> py B) : py B :=
  match m with
  | (t, Ok a) => let (t', r) := k a in (t ++ t', r)
  | (t, Raise e) => (t, Raise e)
  end.

Definition lift {P : Platform} {A} (r : result A) : py A := ([], r).
Definition emit {P : Platform} (e : event) : py unit := ([e], Ok tt).

Declare Scope py_scope.
Delimit Scope py_scope with py.
Notation "x <- m ;; k" := (bind m (fun x => k))
  (at level 100, m at next level, right associativity) : py_scope.
Notation "m ;; k" := (bind m (fun _ => k))
  (at level 100, right associativity) : py_scope.

(** The namespace that [ap.parse_args()] returns. *)
Record Namespace {P : Platform} : Type := {
  cmd : list pystr;
  input : pystr;
  regex : pystr;
  timeout : pyfloat;
  dotall : bool;
  ignorecase : bool;
  require_zero_exit : bool;
  verbose : bool
}.

Section Main.
Context {P : Platform} {E : SreEngine}.
Local Open Scope py_scope.

(** The call of [subprocess.run]: it leaves the event of the spawn,
    with the command, the text given as [input] and the timeout. *)
Definition subprocess_run_io (java_cmd : list pystr) (stdin_text : pystr)
           (timeout_s : pyfloat) : py CompletedProcess :=
  ([Spawn java_cmd stdin_text timeout_s],
   subprocess_run java_cmd stdin_text timeout_s).

(** [run_java] of the source with its effect: the one call of
    [subprocess.run] in the [try] block and the three ways out. *)
Definition run_java_io (java_cmd : list pystr) (stdin_text : pystr)
           (timeout_s : pyfloat) : py RunResult :=
  match subprocess_run_io java_cmd stdin_text timeout_s with
  | (t, Ok cp) =>
      (t, Ok {| ok := (cp_returncode cp =? 0);
                returncode := cp_returncode cp;
                stdout := VStr (cp_stdout cp);
                stderr := cp_stderr cp |})
  | (t, Raise (TimeoutExpired e_stdout e_stderr)) =>
      (t, Ok {| ok := false;
                returncode := 124;
                stdout := or_empty e_stdout;
                stderr := lit "Timed out after " ++ float_str timeout_s
                          ++ lit "s" ++ [NEWLINE]
                          ++ py_str (or_empty e_stderr) |})
  | (t, Raise (FileNotFoundError e)) =>
      (t, Ok {| ok := false;
                returncode := 127;
                stdout := VStr [];
                stderr := lit "Command not found: " ++ e |})
  | (t, Raise e) => (t, Raise e)
  end.

Definition print (v : pyval) : py unit := emit (PrintOut (py_str v)).
Definition print_stderr (v : pyval) : py unit := emit (PrintErr (py_str v)).

Definition main_flags (args : Namespace) : Z :=
    let flags := 0 in
    let flags := if dotall args then Z.lor flags DOTALL else flags in
    let flags := if ignorecase args then Z.lor flags IGNORECASE else flags in
    flags.

Definition main (args : Namespace) : py Z :=
    stdin_text <- lift (decode_input ucd_lookup (input args)) ;;
    let flags := main_flags args in
    rr <- run_java_io (cmd args) stdin_text (timeout args) ;;
    (if verbose args then print (stdout rr) else ret tt) ;;
    if require_zero_exit args && negb (returncode rr =? 0) then
      print_stderr
        (VStr (lit "FAIL: Java program returned non-zero exit code.")) ;;
      print_stderr (VStr (lit "Return code: " ++ int_str (returncode rr))) ;;
      print_stderr (VStr (lit "--- stderr ---")) ;;
      print_stderr (VStr (stderr rr)) ;;
      print_stderr (VStr (lit "--- stdout ---")) ;;
      print_stderr (stdout rr) ;;
      ret 2
    else
      m <- lift (stdout_matches (stdout rr) (regex args) flags) ;;
      if (m : bool) then
        print (VStr (lit "PASS")) ;;
        ret 0
      else
        print_stderr (VStr (lit "FAIL: stdout did not match regex.")) ;;
        print_stderr (VStr (lit "Regex: " ++ regex args)) ;;
        print_stderr (VStr (lit "--- stdout ---")) ;;
        print_stderr (stdout rr) ;;
        print_stderr (VStr (lit "--- stderr ---")) ;;
        print_stderr (VStr (stderr rr)) ;;
        ret 1.

  (** [raise SystemExit(main())]: the status of the process is the
      value that [main] returns; an exception that nothing catches
      ends the interpreter with status 1. *)
Definition exit_status (r : py Z) : Z :=
    match snd r with
    | Ok n => n
    | Raise _ => 1
    end.

Definition printed_out (r : py Z) : list pystr :=
    flat_map (fun e => match e with PrintOut l => [l] | _ => [] end) (fst r).

Definition printed_err (r : py Z) : list pystr :=
    flat_map (fun e => match e with PrintErr l => [l] | _ => [] end) (fst r).

Definition spawned (r : py Z) : list (list pystr * pystr * pyfloat) :=
    flat_map (fun e => match e with Spawn c i t => [(c, i, t)] | _ => [] end)
             (fst r).

(** What [main] prints before it decides: the spawn, and the child's
    output under [--verbose]. *)
Definition preamble (args : Namespace) (stdin_text : pystr)
           (rr : RunResult) : list event :=
  Spawn (cmd args) stdin_text (timeout args)
  :: (if verbose args then [PrintOut (py_str (stdout rr))] else []).

Definition exit_report (rr : RunResult) : list pystr :=
  [ lit "FAIL: Java program returned non-zero exit code.";
    lit "Return code: " ++ int_str (returncode rr);
    lit "--- stderr ---"; stderr rr;
    lit "--- stdout ---"; py_str (stdout rr) ].

Definition mismatch_report (args : Namespace) (rr : RunResult) : list pystr :=
  [ lit "FAIL: stdout did not match regex.";
    lit "Regex: " ++ regex args;
    lit "--- stdout ---"; py_str (stdout rr);
    lit "--- stderr ---"; stderr rr ].

End Main.

(** ** A reference engine for a fragment of the pattern syntax

    Literals, [.], [^], [$], grouping, alternation and the repeats
    [*], [+], [?], under the flags [IGNORECASE] and [DOTALL]; under
    [IGNORECASE] the patterns of the fragment are the ASCII ones, and
    a character of the text is compared with a letter of the pattern
    as the library does, whatever the character.  The instance rejects
    every pattern outside the fragment; the results about [main] do
    not depend on it. *)

Inductive rexp : Type :=
  | REmpty
  | RLit (c : Z)
  | RAny
  | RBol
  | REol
  | RSeq (a b : rexp)
  | RAlt (a b : rexp)
  | RStar (a : rexp).

Module Fragment.

  (** *** Parsing *)

Record frame : Type := {
    f_alts : list rexp;     (* alternatives closed so far, last first *)
    f_seq : list rexp;      (* items of the open alternative, last first *)
    f_rep : bool             (* the last item carries a repeat already *)
  }.

Definition empty_frame : frame :=
    {| f_alts := []; f_seq := []; f_rep := false |}.

Definition mk_seq (items : list rexp) : rexp :=
    fold_left (fun acc r => RSeq r acc) items REmpty.

Definition close_frame (f : frame) : rexp :=
    fold_left (fun acc r => RAlt r acc) (f_alts f) (mk_seq (f_seq f)).

Definition push_item (r : rexp) (f : frame) : frame :=
    {| f_alts := f_alts f; f_seq := r :: f_seq f; f_rep := false |}.

Definition is_anchor (r : rexp) : bool :=
    match r with RBol | REol => true | _ => false end.

Definition repeat_of (q : Z) (r : rexp) : rexp :=
    if q =? 42 then RStar r                      (* r* *)
    else if q =? 43 then RSeq r (RStar r)        (* r+ *)
    else RAlt r REmpty.                          (* r? *)

Definition is_alnum (c : Z) : bool :=
    ((48 <=? c) && (c <=? 57)) || ((65 <=? c) && (c <=? 90))
    || ((97 <=? c) && (c <=? 122)).

  (** The character that a backslash escape of the fragment denotes. *)
Definition escaped (e : Z) : option Z :=
    if e =? 110 then Some 10
    else if e =? 116 then Some 9
    else if e =? 114 then Some 13
    else if (32 <? e) && (e <? 127) && negb (is_alnum e) then Some e
    else None.

Definition atom_of (c : Z) : rexp :=
    if c =? 46 then RAny
    else if c =? 94 then RBol
    else if c =? 36 then REol
    else RLit c.

Fixpoint parse (s : pystr) (cur : frame) (stack : list frame)
    : option rexp :=
    match s with
    | [] =>
        match stack with
        | [] => Some (close_frame cur)
        | _ :: _ => None                          (* missing parenthesis *)
        end
    | c :: s' =>
        if c =? 40 then                           (* ( *)
          match s' with
          | 63 :: _ => None                       (* (?...) extensions *)
          | _ => parse s' empty_frame (cur :: stack)
          end
        else if c =? 41 then                      (* ) *)
          match stack with
          | [] => None                            (* unbalanced *)
          | f :: stack' => parse s' (push_item (close_frame cur) f) stack'
          end
        else if c =? 124 then                     (* | *)
          parse s' {| f_alts := mk_seq (f_seq cur) :: f_alts cur;
                      f_seq := []; f_rep := false |} stack
        else if (c =? 42) || (c =? 43) || (c =? 63) then
          match f_seq cur with
          | [] => None                            (* nothing to repeat *)
          | r :: items =>
              if f_rep cur || is_anchor r then None
              else parse s' {| f_alts := f_alts cur;
                               f_seq := repeat_of c r :: items;
                               f_rep := true |} stack
          end
        else if c =? BACKSLASH then
          match s' with
          | [] => None                            (* bad escape *)
          | e :: s'' =>
              match escaped e with
              | Some x => parse s'' (push_item (RLit x) cur) stack
              | None => None
              end
          end
        else if (c =? 91) || (c =? 123) then None (* classes, counts *)
        else parse s' (push_item (atom_of c) cur) stack
    end.

  (** *** Matching *)

Definition has_flag (flags bit : Z) : bool :=
    negb (Z.land flags bit =? 0).

Definition ascii_lower (c : Z) : Z :=
    if (65 <=? c) && (c <=? 90) then c + 32 else c.

Definition is_ascii_letter (c : Z) : bool :=
    ((65 <=? c) && (c <=? 90)) || ((97 <=? c) && (c <=? 122)).

  (** The text characters that match the lower-case ASCII letter [lo]
      without regard to case: those whose lower case is [lo] (the two
      ASCII letters, KELVIN SIGN U+212A for [k], and U+0130 for [i])
      or one of the extra cases that the compiler adds to [lo]
      (dotless i U+0131 for [i], long s U+017F for [s]). *)
Definition folds_to (x lo : Z) : bool :=
    (ascii_lower x =? lo)
    || ((lo =? 107) && (x =? 8490))
    || ((lo =? 105) && ((x =? 304) || (x =? 305)))
    || ((lo =? 115) && (x =? 383)).

  (** A text character [x] against the pattern character [c], which is
      ASCII whenever [IGNORECASE] is set (see [compile]): a character
      without case is compared as it is. *)
Definition char_eq (flags x c : Z) : bool :=
    if has_flag flags IGNORECASE then
      if is_ascii_letter c then folds_to x (ascii_lower c) else x =? c
    else x =? c.

Definition any_ok (flags x : Z) : bool :=
    has_flag flags DOTALL || negb (x =? NEWLINE).

  (** [$]: at the end, or before a newline that ends the text. *)
Definition at_eol (text : pystr) (i : nat) : bool :=
    Nat.eqb i (List.length text)
    || (Nat.eqb (S i) (List.length text)
        && match nth_error text i with
           | Some x => x =? NEWLINE
           | None => false
           end).

Section Engine.
Variable flags : Z.
Variable text : pystr.

    (** The repeat, greedy: more iterations are tried first.  An
        iteration that consumes nothing is not repeated. *)
Fixpoint star_ends (step : nat -> list nat) (fuel : nat) (i : nat)
      : list nat :=
      match fuel with
      | O => [i]
      | S fuel' =>
          flat_map (fun j => if Nat.ltb i j then star_ends step fuel' j
                             else [])
                   (step i) ++ [i]
      end.

    (** The ends of the matches of [r] that start at [i], in the
        order in which backtracking finds them. *)
Fixpoint ends (r : rexp) (i : nat) : list nat :=
      match r with
      | REmpty => [i]
      | RLit c =>
          match nth_error text i with
          | Some x => if char_eq flags x c then [S i] else []
          | None => []
          end
      | RAny =>
          match nth_error text i with
          | Some x => if any_ok flags x then [S i] else []
          | None => []
          end
      | RBol => if Nat.eqb i 0 then [i] else []
      | REol => if at_eol text i then [i] else []
      | RSeq a b => flat_map (ends b) (ends a i)
      | RAlt a b => ends a i ++ ends b i
      | RStar a => star_ends (ends a) (S (List.length text) - i) i
      end.

    (** The matches of a pattern, as a relation: [Matches r i j] when
        [r] matches the slice [text[i:j]] in its place in [text]. *)
Inductive Matches : rexp -> nat -> nat -> Prop :=
      | MEmpty i : Matches REmpty i i
      | MLit c x i :
          nth_error text i = Some x -> char_eq flags x c = true ->
          Matches (RLit c) i (S i)
      | MAny x i :
          nth_error text i = Some x -> any_ok flags x = true ->
          Matches RAny i (S i)
      | MBol : Matches RBol 0%nat 0%nat
      | MEol i : at_eol text i = true -> Matches REol i i
      | MSeq a b i k j :
          Matches a i k -> Matches b k j -> Matches (RSeq a b) i j
      | MAltL a b i j : Matches a i j -> Matches (RAlt a b) i j
      | MAltR a b i j : Matches b i j -> Matches (RAlt a b) i j
      | MStarNil a i : Matches (RStar a) i i
      | MStarCons a i k j :
          Matches a i k -> Matches (RStar a) k j -> Matches (RStar a) i j.

End Engine.

  (** The flags that the fragment knows: [IGNORECASE], [DOTALL], and
      [UNICODE], which every [str] pattern has. *)
Definition known_flags : Z := 50.

Definition ascii_only (pattern : pystr) : bool :=
    forallb (fun c => (0 <=? c) && (c <? 128)) pattern.

  (** Under [IGNORECASE] the fragment holds the ASCII patterns only. *)
Definition compile (pattern : pystr) (flags : Z) : result (rexp * Z) :=
    if Z.land flags known_flags =? flags then
      if has_flag flags IGNORECASE && negb (ascii_only pattern) then
        Raise ReError
      else
        match parse pattern empty_frame [] with
        | Some r => Ok (r, flags)
        | None => Raise ReError
        end
    else Raise ReError.

Definition match_at (p : rexp * Z) (text : pystr) (pos : nat)
    : option nat :=
    hd_error (ends (snd p) text (fst p) pos).

#[export] Instance engine : SreEngine := {|
    sre_pattern := (rexp * Z)%type;
    sre_compile := compile;
    sre_match := match_at
  |}.

End Fragment.

(** ** A scripted platform

    A platform whose [subprocess.run] is a given function, for running
    the model on concrete inputs.  Its floats are kept as their
    text. *)
Definition scripted (run : list pystr -> pystr -> result CompletedProcess)
  : Platform := {|
  pyfloat := pystr;
  float_str := fun t => t;
  ucd_lookup := fun _ => None;
  subprocess_run := fun c i _ => run c i
|}.

(** Children for concrete runs: [cat], which copies its input to its
    output; a child that ends with status 3; one that outlives the
    timeout after writing to both streams; a command that does not
    exist; and a file that exists and may not be executed. *)
Definition cat_child : Platform :=
  scripted (fun _ i =>
    Ok {| cp_returncode := 0; cp_stdout := i; cp_stderr := [] |}).

Definition failing_child : Platform :=
  scripted (fun _ i =>
    Ok {| cp_returncode := 3; cp_stdout := i; cp_stderr := lit "boom" |}).

Definition sleeping_child : Platform :=
  scripted (fun _ _ =>
    Raise (TimeoutExpired (VBytes (lit "partial")) (VBytes (lit "warn")))).


Definition missing_child : Platform :=
  scripted (fun _ _ =>
    Raise (FileNotFoundError
             (lit "[Errno 2] No such file or directory: 'java'"))).

Definition forbidden_child : Platform :=
  scripted (fun _ _ =>
    Raise (PermissionError (lit "[Errno 13] Permission denied: './Main'"))).

(** The arguments of a concrete run: [--cmd java Main --input inp
    --regex re --timeout t], with [--require-zero-exit] when [rze]. *)
Definition run_args (P : Platform) (t : pyfloat) (inp re : pystr)
           (rze : bool) : Namespace :=
  {| cmd := [lit "java"; lit "Main"]; input := inp; regex := re;
     timeout := t; dotall := false; ignorecase := false;
     require_zero_exit := rze; verbose := false |}.

(** ** Vocabulary of the properties *)

(** [sub] occurs in [s]. *)
Definition contains (sub s : pystr) : Prop :=
  exists pre post, s = pre ++ sub ++ post.




(** A launch of the child that fails: [subprocess.run] raises an
    [OSError] before any process exists. *)
Definition launch_fails (r : result CompletedProcess) : bool :=
  match r with
  | Raise (FileNotFoundError _) | Raise (PermissionError _)
  | Raise (OSError _) => true
  | _ => false
  end.

(** The same arguments with [--verbose], or with
    [--require-zero-exit], given or left out. *)
Definition with_verbose {P : Platform} (b : bool) (args : Namespace)
  : Namespace :=
  {| cmd := cmd args; input := input args; regex := regex args;
     timeout := timeout args; dotall := dotall args;
     ignorecase := ignorecase args;
     require_zero_exit := require_zero_exit args; verbose := b |}.

Definition with_require_zero_exit {P : Platform} (b : bool)
           (args : Namespace) : Namespace :=
  {| cmd := cmd args; input := input args; regex := regex args;
     timeout := timeout args; dotall := dotall args;
     ignorecase := ignorecase args;
     require_zero_exit := b; verbose := verbose args |}.

(** The characters that start an escape the codec knows when they
    follow a backslash. *)
Definition recognised_escape (e : Z) : bool :=
  match simple_escape e with
  | Some _ => true
  | None =>
      (e =? 10) || is_octal e || (e =? 120) || (e =? 117) || (e =? 85)
      || (e =? 78)
  end.

(** * Properties *)

(** ** The process runner *)

Section RunnerFacts.
Context {P : Platform}.
Variables (java_cmd : list pystr) (stdin_text : pystr) (timeout_s : pyfloat).

Lemma run_java_completed cp :
    subprocess_run java_cmd stdin_text timeout_s = Ok cp ->
    run_java java_cmd stdin_text timeout_s =
      Ok {| ok := (cp_returncode cp =? 0); returncode := cp_returncode cp;
            stdout := VStr (cp_stdout cp); stderr := cp_stderr cp |}.
  Proof. intros H. unfold run_java. now rewrite H. Qed.

Lemma run_java_timeout out err :
    subprocess_run java_cmd stdin_text timeout_s
      = Raise (TimeoutExpired out err) ->
    run_java java_cmd stdin_text timeout_s =
      Ok {| ok := false; returncode := 124; stdout := or_empty out;
            stderr := lit "Timed out after " ++ float_str timeout_s
                      ++ lit "s" ++ [NEWLINE] ++ py_str (or_empty err) |}.
  Proof. intros H. unfold run_java. now rewrite H. Qed.

Lemma run_java_not_found msg :
    subprocess_run java_cmd stdin_text timeout_s
      = Raise (FileNotFoundError msg) ->
    run_java java_cmd stdin_text timeout_s =
      Ok {| ok := false; returncode := 127; stdout := VStr [];
            stderr := lit "Command not found: " ++ msg |}.
  Proof. intros H. unfold run_java. now rewrite H. Qed.

  (** Every other exception of [subprocess.run] leaves [run_java]. *)
Lemma run_java_raises e :
    run_java java_cmd stdin_text timeout_s = Raise e ->
    subprocess_run java_cmd stdin_text timeout_s = Raise e
    /\ (forall out err, e <> TimeoutExpired out err)
    /\ (forall msg, e <> FileNotFoundError msg).
  Proof.
    unfold run_java.
    destruct (subprocess_run java_cmd stdin_text timeout_s) as [cp|e'];
      [discriminate|].
    destruct e'; intros H; try discriminate; inversion H; subst;
      repeat split; intros; discriminate.
  Qed.

  (** The three branches of [run_java] are the only ones that give a
      [RunResult]. *)
Lemma run_java_result rr :
    run_java java_cmd stdin_text timeout_s = Ok rr ->
    (exists cp, subprocess_run java_cmd stdin_text timeout_s = Ok cp)
    \/ (exists out err, subprocess_run java_cmd stdin_text timeout_s
                        = Raise (TimeoutExpired out err))
    \/ (exists msg, subprocess_run java_cmd stdin_text timeout_s
                    = Raise (FileNotFoundError msg)).
  Proof.
    unfold run_java.
    destruct (subprocess_run java_cmd stdin_text timeout_s) as [cp|e].
    - intros _. left. now exists cp.
    - destruct e; intros H; try discriminate.
      + right; left. now exists out, err.
      + right; right. now exists msg.
  Qed.

End RunnerFacts.

Lemma contains_refl s : contains s s.
Proof. exists [], []. simpl. now rewrite app_nil_r. Qed.

Lemma contains_app_r sub pre s : contains sub s -> contains sub (pre ++ s).
Proof.
  intros (a & b & ->). exists (pre ++ a), b. now rewrite <- app_assoc.
Qed.

(** C9.  Whatever branch of [run_java] produced it (normal
    termination, timeout, executable not found), a [RunResult]
    satisfies [ok = (returncode == 0)]. *)
Theorem run_java_ok_iff_zero :
  forall (P : Platform) (java_cmd : list pystr) (stdin_text : pystr)
         (timeout_s : pyfloat) (rr : RunResult),
    run_java java_cmd stdin_text timeout_s = Ok rr ->
    ok rr = (returncode rr =? 0).
Proof.
  intros P java_cmd stdin_text timeout_s rr H.
  destruct (run_java_result _ _ _ H) as [(cp & Hs) | [(o & e & Hs) | (m & Hs)]].
  - rewrite (run_java_completed _ _ _ Hs) in H. now inversion H.
  - rewrite (run_java_timeout _ _ _ Hs) in H. now inversion H.
  - rewrite (run_java_not_found _ _ _ Hs) in H. now inversion H.
Qed.

Lemma run_java_ok_iff_zero_witness :
  @run_java sleeping_child [lit "java"] (lit "in") (lit "2.0")
    = Ok {| ok := false; returncode := 124;
            stdout := VBytes (lit "partial");
            stderr := lit "Timed out after 2.0s" ++ [NEWLINE]
                      ++ lit "b'warn'" |}
  /\ false = (124 =? 0).
Proof.
  split; [reflexivity|].
  exact (@run_java_ok_iff_zero sleeping_child [lit "java"] (lit "in")
           (lit "2.0") _ eq_refl).
Defined.






(** C6, as amended.  When the launch raises [FileNotFoundError],
    [run_java] returns a [RunResult] with [ok = False],
    [returncode = 127], an empty [stdout] and the [stderr] text
    [Command not found: ] followed by the text of the exception; a
    launch that fails with any other exception gives no [RunResult]:
    the exception leaves [run_java]. *)
Theorem run_java_not_found_result :
  forall (P : Platform) (java_cmd : list pystr) (stdin_text : pystr)
         (timeout_s : pyfloat),
    (forall msg,
        subprocess_run java_cmd stdin_text timeout_s
          = Raise (FileNotFoundError msg) ->
        exists rr,
          run_java java_cmd stdin_text timeout_s = Ok rr
          /\ ok rr = false
          /\ returncode rr = 127
          /\ stdout rr = VStr []
          /\ stderr rr = lit "Command not found: " ++ msg
          /\ contains msg (stderr rr))
    /\ (forall e,
          subprocess_run java_cmd stdin_text timeout_s = Raise e ->
          launch_fails (Raise e) = true ->
          (forall msg, e <> FileNotFoundError msg) ->
          run_java java_cmd stdin_text timeout_s = Raise e).
Proof.
  intros P java_cmd stdin_text timeout_s. split.
  - intros msg H. eexists. split; [apply (run_java_not_found _ _ _ H)|].
    cbn [ok returncode stdout stderr]. repeat split.
    apply contains_app_r, contains_refl.
  - intros e H Hl Hne. unfold run_java. rewrite H.
    destruct e; try discriminate; try reflexivity.
    now elim (Hne msg).
Qed.

Lemma run_java_not_found_result_witness :
  (exists rr,
      @run_java missing_child [lit "java"] [] (lit "2.0") = Ok rr
      /\ ok rr = false /\ returncode rr = 127 /\ stdout rr = VStr [])
  /\ @run_java forbidden_child [lit "./Main"] [] (lit "2.0")
     = Raise (PermissionError (lit "[Errno 13] Permission denied: './Main'")).
Proof.
  split.
  - destruct (proj1 (@run_java_not_found_result missing_child [lit "java"] []
                       (lit "2.0")) _ eq_refl)
      as (rr & Hrun & Hok & Hrc & Hout & _).
    exists rr. repeat split; assumption.
  - apply (proj2 (@run_java_not_found_result forbidden_child [lit "./Main"] []
                    (lit "2.0")) _ eq_refl eq_refl).
    intros msg; discriminate.
Defined.

(** C6, as stated, fails: a first command token that names a file
    which may not be executed cannot be launched, and [run_java]
    returns no [RunResult] for it. *)
Lemma run_java_launch_failure_counterexample :
  ~ (forall (P : Platform) (java_cmd : list pystr) (stdin_text : pystr)
            (timeout_s : pyfloat),
        launch_fails (subprocess_run java_cmd stdin_text timeout_s) = true ->
        exists rr,
          run_java java_cmd stdin_text timeout_s = Ok rr
          /\ ok rr = false /\ returncode rr = 127 /\ stdout rr = VStr []).
Proof.
  intros H.
  destruct (H forbidden_child [lit "./Main"] [] (lit "2.0") eq_refl)
    as (rr & Hrun & _).
  discriminate Hrun.
Qed.

(** ** The reporter *)

Section MainFacts.
Context {P : Platform} {E : SreEngine}.
Variable args : Namespace.

(** The runner calls [subprocess.run] once on every way through it:
    its trace is the one spawn, and its result is [run_java]'s. *)
Lemma run_java_io_eq (java_cmd : list pystr) (stdin_text : pystr)
      (timeout_s : pyfloat) :
  run_java_io java_cmd stdin_text timeout_s
  = ([Spawn java_cmd stdin_text timeout_s],
     run_java java_cmd stdin_text timeout_s).
Proof.
  unfold run_java_io, subprocess_run_io, run_java.
  destruct (subprocess_run java_cmd stdin_text timeout_s) as [cp|e];
    [reflexivity|].
  destruct e; reflexivity.
Qed.

(** [main], once the input is decoded and the runner has returned. *)
Lemma main_after_run stdin_text rr :
  decode_input ucd_lookup (input args) = Ok stdin_text ->
  run_java (cmd args) stdin_text (timeout args) = Ok rr ->
  main args =
    if require_zero_exit args && negb (returncode rr =? 0) then
      (preamble args stdin_text rr ++ map PrintErr (exit_report rr), Ok 2)
    else
      match stdout_matches (stdout rr) (regex args) (main_flags args) with
      | Ok true =>
          (preamble args stdin_text rr ++ [PrintOut (lit "PASS")], Ok 0)
      | Ok false =>
          (preamble args stdin_text rr
             ++ map PrintErr (mismatch_report args rr), Ok 1)
      | Raise e => (preamble args stdin_text rr, Raise e)
      end.
Proof.
  intros Hdec Hrun. unfold main, preamble, exit_report, mismatch_report.
  rewrite Hdec. cbn [lift bind emit]. rewrite run_java_io_eq, Hrun.
  cbn [bind app].
  destruct (require_zero_exit args && negb (returncode rr =? 0)).
  - destruct (verbose args); reflexivity.
  - destruct (stdout_matches (stdout rr) (regex args) (main_flags args))
      as [[|]|e]; destruct (verbose args); reflexivity.
Qed.

Lemma main_decode_fails e :
  decode_input ucd_lookup (input args) = Raise e ->
  main args = ([], Raise e).
Proof. intros H. unfold main. now rewrite H. Qed.

Lemma main_run_fails stdin_text e :
  decode_input ucd_lookup (input args) = Ok stdin_text ->
  run_java (cmd args) stdin_text (timeout args) = Raise e ->
  main args = ([Spawn (cmd args) stdin_text (timeout args)], Raise e).
Proof.
  intros Hdec Hrun. unfold main. rewrite Hdec. cbn [lift bind emit].
  now rewrite run_java_io_eq, Hrun.
Qed.

(** The status of the process is 0, 1 or 2 on every run. *)
Lemma exit_status_range :
  exit_status (main args) = 0 \/ exit_status (main args) = 1
  \/ exit_status (main args) = 2.
Proof.
  destruct (decode_input ucd_lookup (input args)) as [stdin_text|e] eqn:Hdec.
  2:{ rewrite (main_decode_fails Hdec). auto. }
  destruct (run_java (cmd args) stdin_text (timeout args)) as [rr|e] eqn:Hrun.
  2:{ rewrite (main_run_fails Hdec Hrun). auto. }
  rewrite (main_after_run Hdec Hrun).
  destruct (require_zero_exit args && negb (returncode rr =? 0)); [auto|].
  destruct (stdout_matches (stdout rr) (regex args) (main_flags args))
    as [[|]|e]; auto.
Qed.

Lemma printed_out_preamble stdin_text rr tail r :
  printed_out (preamble args stdin_text rr ++ tail, r)
  = (if verbose args then [py_str (stdout rr)] else [])
    ++ printed_out (tail, r).
Proof. unfold printed_out, preamble. destruct (verbose args); reflexivity. Qed.

Lemma printed_err_preamble stdin_text rr tail r :
  printed_err (preamble args stdin_text rr ++ tail, r) = printed_err (tail, r).
Proof. unfold printed_err, preamble. destruct (verbose args); reflexivity. Qed.

Lemma spawned_preamble stdin_text rr tail r :
  (forall e, In e tail -> match e with Spawn _ _ _ => False | _ => True end) ->
  spawned (preamble args stdin_text rr ++ tail, r)
  = [(cmd args, stdin_text, timeout args)].
Proof.
  intros Ht. unfold spawned, preamble. cbn [fst app flat_map].
  assert (Hnil : forall l, (forall e, In e l ->
             match e with Spawn _ _ _ => False | _ => True end) ->
           flat_map (fun e => match e with
                              | Spawn c i t => [(c, i, t)]
                              | _ => []
                              end) l = []).
  { induction l as [|e l IH]; intros Hl; [reflexivity|]. cbn [flat_map].
    rewrite IH by (intros; apply Hl; now right).
    specialize (Hl e (or_introl eq_refl)). now destruct e. }
  rewrite flat_map_app, (Hnil tail Ht), app_nil_r.
  destruct (verbose args); reflexivity.
Qed.

End MainFacts.

(** C1.  With [--require-zero-exit] set and a captured exit code other
    than zero, [main] prints the report of a non-zero exit code (the
    reason, the exit code, stderr and stdout) to the diagnostic stream
    and returns 2, so the status of the process is 2; the regex plays
    no part: this holds for every pattern and every engine. *)
Theorem main_requires_zero_exit :
  forall (P : Platform) (E : SreEngine) (args : Namespace)
         (stdin_text : pystr) (rr : RunResult),
    require_zero_exit args = true ->
    decode_input ucd_lookup (input args) = Ok stdin_text ->
    run_java (cmd args) stdin_text (timeout args) = Ok rr ->
    returncode rr <> 0 ->
    snd (main args) = Ok 2
    /\ exit_status (main args) = 2
    /\ printed_err (main args) =
         [ lit "FAIL: Java program returned non-zero exit code.";
           lit "Return code: " ++ int_str (returncode rr);
           lit "--- stderr ---"; stderr rr;
           lit "--- stdout ---"; py_str (stdout rr) ]
    /\ printed_out (main args)
       = (if verbose args then [py_str (stdout rr)] else []).
Proof.
  intros P E args stdin_text rr Hreq Hdec Hrun Hrc.
  rewrite (main_after_run _ Hdec Hrun), Hreq.
  apply Z.eqb_neq in Hrc. rewrite Hrc. cbn [andb negb].
  unfold exit_status. cbn [snd]. repeat split.
  - rewrite printed_err_preamble. reflexivity.
  - rewrite printed_out_preamble. cbn. now rewrite app_nil_r.
Qed.

Lemma main_requires_zero_exit_witness :
  @stdout_matches Fragment.engine (VStr (lit "ok")) (lit "ok") 0 = Ok true
  /\ exit_status (@main failing_child Fragment.engine
                    (run_args failing_child (lit "2.0") (lit "ok") (lit "ok")
                              true)) = 2.
Proof.
  split; [reflexivity|].
  refine (proj1 (proj2 (@main_requires_zero_exit failing_child Fragment.engine
    (run_args failing_child (lit "2.0") (lit "ok") (lit "ok") true)
    (lit "ok")
    {| ok := false; returncode := 3; stdout := VStr (lit "ok");
       stderr := lit "boom" |}
    eq_refl eq_refl eq_refl _))).
  cbn. discriminate.
Defined.

(** C2.  When the branch of the non-zero exit code is not taken
    ([--require-zero-exit] is not set, or the exit code is zero) and
    [stdout_matches] returns true on the captured stdout, [main] prints
    [PASS] to the primary output stream, nothing to the diagnostic
    stream, and returns 0; without [--require-zero-exit] this is so
    whatever the exit code of the child. *)
Theorem main_pass :
  forall (P : Platform) (E : SreEngine) (args : Namespace)
         (stdin_text : pystr) (rr : RunResult),
    decode_input ucd_lookup (input args) = Ok stdin_text ->
    run_java (cmd args) stdin_text (timeout args) = Ok rr ->
    require_zero_exit args = false \/ returncode rr = 0 ->
    stdout_matches (stdout rr) (regex args) (main_flags args) = Ok true ->
    snd (main args) = Ok 0
    /\ exit_status (main args) = 0
    /\ printed_out (main args)
       = (if verbose args then [py_str (stdout rr)] else []) ++ [lit "PASS"]
    /\ printed_err (main args) = [].
Proof.
  intros P E args stdin_text rr Hdec Hrun Hbranch Hm.
  rewrite (main_after_run _ Hdec Hrun), Hm.
  assert (Hb : require_zero_exit args && negb (returncode rr =? 0) = false).
  { destruct Hbranch as [-> | ->]; [reflexivity|]. now rewrite andb_false_r. }
  rewrite Hb. unfold exit_status. cbn [snd]. repeat split.
  - rewrite printed_out_preamble. reflexivity.
  - rewrite printed_err_preamble. reflexivity.
Qed.

Lemma main_pass_witness :
  returncode {| ok := false; returncode := 3; stdout := VStr (lit "xxOKyy");
                stderr := lit "boom" |} = 3
  /\ printed_out (@main failing_child Fragment.engine
                    (run_args failing_child (lit "2.0") (lit "xxOKyy")
                              (lit "OK") false)) = [lit "PASS"]
  /\ exit_status (@main failing_child Fragment.engine
                    (run_args failing_child (lit "2.0") (lit "xxOKyy")
                              (lit "OK") false)) = 0.
Proof.
  split; [reflexivity|].
  destruct (@main_pass failing_child Fragment.engine
    (run_args failing_child (lit "2.0") (lit "xxOKyy") (lit "OK") false)
    (lit "xxOKyy")
    {| ok := false; returncode := 3; stdout := VStr (lit "xxOKyy");
       stderr := lit "boom" |}
    eq_refl eq_refl (or_introl eq_refl) eq_refl) as (_ & Hs & Hout & _).
  split; assumption.
Defined.

(** C3.  When the branch of the non-zero exit code is not taken and
    [stdout_matches] returns false on the captured stdout, [main]
    prints the report of the mismatch (the reason, the pattern, stdout
    and stderr) to the diagnostic stream and returns 1. *)
Theorem main_mismatch :
  forall (P : Platform) (E : SreEngine) (args : Namespace)
         (stdin_text : pystr) (rr : RunResult),
    decode_input ucd_lookup (input args) = Ok stdin_text ->
    run_java (cmd args) stdin_text (timeout args) = Ok rr ->
    require_zero_exit args = false \/ returncode rr = 0 ->
    stdout_matches (stdout rr) (regex args) (main_flags args) = Ok false ->
    snd (main args) = Ok 1
    /\ exit_status (main args) = 1
    /\ printed_err (main args) =
         [ lit "FAIL: stdout did not match regex.";
           lit "Regex: " ++ regex args;
           lit "--- stdout ---"; py_str (stdout rr);
           lit "--- stderr ---"; stderr rr ]
    /\ printed_out (main args)
       = (if verbose args then [py_str (stdout rr)] else []).
Proof.
  intros P E args stdin_text rr Hdec Hrun Hbranch Hm.
  rewrite (main_after_run _ Hdec Hrun), Hm.
  assert (Hb : require_zero_exit args && negb (returncode rr =? 0) = false).
  { destruct Hbranch as [-> | ->]; [reflexivity|]. now rewrite andb_false_r. }
  rewrite Hb. unfold exit_status. cbn [snd]. repeat split.
  - rewrite printed_err_preamble. reflexivity.
  - rewrite printed_out_preamble. cbn. now rewrite app_nil_r.
Qed.

Lemma main_mismatch_witness :
  @stdout_matches Fragment.engine (VStr (lit "hello")) (lit "OK") 0 = Ok false
  /\ exit_status (@main cat_child Fragment.engine
                    (run_args cat_child (lit "2.0") (lit "hello") (lit "OK")
                              true)) = 1.
Proof.
  split; [reflexivity|].
  refine (proj1 (proj2 (@main_mismatch cat_child Fragment.engine
    (run_args cat_child (lit "2.0") (lit "hello") (lit "OK") true)
    (lit "hello")
    {| ok := true; returncode := 0; stdout := VStr (lit "hello");
       stderr := [] |}
    eq_refl eq_refl (or_intror eq_refl) eq_refl))).
Defined.

(** C4, as stated, fails: with a child that outlives the timeout the
    status of the tool's own process is 2 under [--require-zero-exit],
    not 124, and with a command that does not exist and a pattern that
    matches the empty text it is 0, not 127. *)
Lemma exit_status_124_127_counterexample :
  exit_status (@main sleeping_child Fragment.engine
                 (run_args sleeping_child (lit "2.0") (lit "in") (lit "OK")
                           true)) = 2
  /\ exit_status (@main missing_child Fragment.engine
                    (run_args missing_child (lit "2.0") (lit "in") (lit "x*")
                              false)) = 0
  /\ ~ (forall (P : Platform) (E : SreEngine) (args : Namespace)
               (stdin_text : pystr),
          decode_input ucd_lookup (input args) = Ok stdin_text ->
          (forall out err,
              subprocess_run (cmd args) stdin_text (timeout args)
                = Raise (TimeoutExpired out err) ->
              exit_status (main args) = 124)
          /\ (forall msg,
                subprocess_run (cmd args) stdin_text (timeout args)
                  = Raise (FileNotFoundError msg) ->
                exit_status (main args) = 127)).
Proof.
  split; [reflexivity|]. split; [reflexivity|].
  intros H.
  destruct (H sleeping_child Fragment.engine
              (run_args sleeping_child (lit "2.0") (lit "in") (lit "OK") true)
              (lit "in") eq_refl) as (Ht & _).
  specialize (Ht _ _ eq_refl). discriminate Ht.
Qed.

(** C4, as amended.  When the child outlives the timeout the
    [returncode] of the [RunResult] is 124, and when the executable is
    not found it is 127; the status of the tool's own process is then
    2 under [--require-zero-exit], with [Return code: 124] or
    [Return code: 127] in the report, and without that flag it is 0
    when [stdout_matches] returns true on the captured stdout and 1
    otherwise.  It is never 124 or 127. *)
Theorem exit_status_after_timeout_or_not_found :
  forall (P : Platform) (E : SreEngine) (args : Namespace)
         (stdin_text : pystr) (e : exn) (code : Z),
    decode_input ucd_lookup (input args) = Ok stdin_text ->
    subprocess_run (cmd args) stdin_text (timeout args) = Raise e ->
    (exists out err, e = TimeoutExpired out err /\ code = 124)
    \/ (exists msg, e = FileNotFoundError msg /\ code = 127) ->
    exists rr,
      run_java (cmd args) stdin_text (timeout args) = Ok rr
      /\ returncode rr = code
      /\ (require_zero_exit args = true ->
          exit_status (main args) = 2
          /\ In (lit "Return code: " ++ int_str code)
                (printed_err (main args)))
      /\ (require_zero_exit args = false ->
          exit_status (main args) =
            match stdout_matches (stdout rr) (regex args) (main_flags args)
            with
            | Ok true => 0
            | _ => 1
            end)
      /\ exit_status (main args) <> 124
      /\ exit_status (main args) <> 127.
Proof.
  intros P E args stdin_text e code Hdec Hsub Hcase.
  assert (Hrun : exists rr,
             run_java (cmd args) stdin_text (timeout args) = Ok rr
             /\ returncode rr = code).
  { destruct Hcase as [(out & err & -> & ->) | (msg & -> & ->)].
    - eexists. split; [apply (run_java_timeout _ _ _ Hsub)|reflexivity].
    - eexists. split; [apply (run_java_not_found _ _ _ Hsub)|reflexivity]. }
  destruct Hrun as (rr & Hrun & Hrc). exists rr.
  assert (Hnz : (returncode rr =? 0) = false).
  { apply Z.eqb_neq. rewrite Hrc.
    destruct Hcase as [(? & ? & _ & ->) | (? & _ & ->)]; discriminate. }
  split; [assumption|]. split; [assumption|].
  split; [|split; [|split]].
  - intros Hreq. rewrite (main_after_run _ Hdec Hrun), Hreq, Hnz.
    cbn [andb negb]. split; [reflexivity|].
    rewrite printed_err_preamble. unfold printed_err, exit_report. cbn.
    rewrite Hrc. right. left. reflexivity.
  - intros Hreq. rewrite (main_after_run _ Hdec Hrun), Hreq. cbn [andb].
    destruct (stdout_matches (stdout rr) (regex args) (main_flags args))
      as [[|]|x]; reflexivity.
  - destruct (exit_status_range args) as [-> | [-> | ->]]; discriminate.
  - destruct (exit_status_range args) as [-> | [-> | ->]]; discriminate.
Qed.

Lemma exit_status_after_timeout_or_not_found_witness :
  exists rr,
    @run_java sleeping_child [lit "java"; lit "Main"] (lit "in") (lit "2.0")
      = Ok rr
    /\ returncode rr = 124
    /\ exit_status (@main sleeping_child Fragment.engine
                      (run_args sleeping_child (lit "2.0") (lit "in")
                                (lit "OK") true)) <> 124.
Proof.
  destruct (@exit_status_after_timeout_or_not_found sleeping_child
              Fragment.engine
              (run_args sleeping_child (lit "2.0") (lit "in") (lit "OK") true)
              (lit "in") _ 124 eq_refl eq_refl
              (or_introl (ex_intro _ _ (ex_intro _ _ (conj eq_refl eq_refl)))))
    as (rr & Hrun & Hrc & _ & _ & Hne & _).
  exists rr. repeat split; assumption.
Defined.

(** ** The matcher *)

Section SearchFacts.
Context {E : SreEngine}.
Variables (p : sre_pattern) (text : pystr).

Lemma search_from_found pos n k e :
  search_from p text pos n = Some (k, e) ->
  (pos <= k < pos + n)%nat /\ sre_match p text k = Some e.
Proof.
  revert pos. induction n as [|n IH]; intros pos; cbn [search_from].
  - discriminate.
  - destruct (sre_match p text pos) as [e'|] eqn:Hm.
    + intros H. inversion H; subst. split; [lia|assumption].
    + intros H. apply IH in H. destruct H as [H1 H2]. split; [lia|assumption].
Qed.

Lemma search_from_none pos n :
  search_from p text pos n = None <->
  (forall k, (pos <= k < pos + n)%nat -> sre_match p text k = None).
Proof.
  revert pos. induction n as [|n IH]; intros pos; cbn [search_from].
  - split; [intros _ k Hk; lia | reflexivity].
  - destruct (sre_match p text pos) as [e'|] eqn:Hm.
    + split; [discriminate|]. intros H. rewrite (H pos) in Hm by lia.
      discriminate.
    + rewrite IH. split; intros H k Hk.
      * destruct (Nat.eq_dec k pos) as [->|Hne]; [assumption|].
        apply H. lia.
      * apply H. lia.
Qed.

Lemma search_from_some_iff pos n :
  (exists m, search_from p text pos n = Some m) <->
  (exists k e, (pos <= k < pos + n)%nat /\ sre_match p text k = Some e).
Proof.
  split.
  - intros ([k e] & H). exists k, e. now apply search_from_found.
  - intros (k & e & Hk & Hm).
    destruct (search_from p text pos n) as [m|] eqn:Hs; [now exists m|].
    rewrite search_from_none in Hs. rewrite (Hs k Hk) in Hm. discriminate.
Qed.

End SearchFacts.

(** [stdout_matches] on a text, once the pattern is compiled. *)
Lemma stdout_matches_compiled {E : SreEngine} pattern flags p text :
  sre_compile pattern flags = Ok p ->
  stdout_matches (VStr text) pattern flags
  = Ok (match search_from p text 0 (S (List.length text)) with
        | Some _ => true
        | None => false
        end).
Proof. intros H. unfold stdout_matches, re_search. now rewrite H. Qed.

Lemma stdout_matches_true_iff {E : SreEngine} pattern flags p text :
  sre_compile pattern flags = Ok p ->
  stdout_matches (VStr text) pattern flags = Ok true <->
  exists pos e, (pos <= List.length text)%nat
                /\ sre_match p text pos = Some e.
Proof.
  intros H. rewrite (@stdout_matches_compiled _ _ _ p text H). split.
  - destruct (search_from p text 0 (S (List.length text))) as [[k e]|] eqn:Hs;
      [|discriminate].
    intros _. apply search_from_found in Hs. exists k, e.
    split; [lia|tauto].
  - intros (k & e & Hk & Hm).
    destruct (search_from p text 0 (S (List.length text))) as [m|] eqn:Hs;
      [reflexivity|].
    rewrite search_from_none in Hs. rewrite Hs in Hm by lia. discriminate.
Qed.

Lemma stdout_matches_false_iff {E : SreEngine} pattern flags p text :
  sre_compile pattern flags = Ok p ->
  stdout_matches (VStr text) pattern flags = Ok false <->
  forall pos, (pos <= List.length text)%nat -> sre_match p text pos = None.
Proof.
  intros H. rewrite (@stdout_matches_compiled _ _ _ p text H). split.
  - destruct (search_from p text 0 (S (List.length text))) as [m|] eqn:Hs;
      [discriminate|].
    intros _ pos Hpos. rewrite search_from_none in Hs. apply Hs. lia.
  - intros Hall.
    destruct (search_from p text 0 (S (List.length text))) as [[k e]|] eqn:Hs;
      [|reflexivity].
    apply search_from_found in Hs. destruct Hs as [Hk Hm].
    rewrite Hall in Hm by lia. discriminate.
Qed.

(** *** The reference engine computes the relation *)

Module FragmentFacts.
Import Fragment.

Section EngineFacts.
Variable flags : Z.
Variable text : pystr.

Local Abbreviation ends := (ends flags text).
Local Abbreviation Matches := (Matches flags text).

Lemma Matches_le r i j : Matches r i j -> (i <= j)%nat.
Proof. induction 1; lia. Qed.

Lemma Matches_bound r i j :
  Matches r i j -> (i <= List.length text)%nat -> (j <= List.length text)%nat.
Proof.
  induction 1; intros Hi; auto;
    match goal with
    | H : nth_error text _ = Some _ |- _ =>
        assert (nth_error text i <> None) as Hn by (rewrite H; discriminate);
        apply nth_error_Some in Hn; lia
    end.
Qed.

Lemma star_ends_self step fuel i : In i (star_ends step fuel i).
Proof.
  destruct fuel; cbn [star_ends]; [now left|].
  apply in_or_app. right. now left.
Qed.

Lemma star_ends_mono step fuel :
  forall i j, In j (star_ends step fuel i) -> In j (star_ends step (S fuel) i).
Proof.
  induction fuel as [|fuel IH]; intros i j.
  - cbn [star_ends]. intros [<-|[]]. apply in_or_app. right. now left.
  - intros H. change (star_ends step (S fuel) i)
      with (flat_map (fun k => if Nat.ltb i k then star_ends step fuel k
                               else []) (step i) ++ [i]) in H.
    change (star_ends step (S (S fuel)) i)
      with (flat_map (fun k => if Nat.ltb i k then star_ends step (S fuel) k
                               else []) (step i) ++ [i]).
    apply in_app_or in H. apply in_or_app.
    destruct H as [H|H]; [left|now right].
    apply in_flat_map in H. destruct H as (k & Hk & Hj).
    apply in_flat_map. exists k. split; [assumption|].
    destruct (Nat.ltb i k); [now apply IH | assumption].
Qed.

Lemma star_ends_mono_le step f f' i j :
  (f <= f')%nat -> In j (star_ends step f i) -> In j (star_ends step f' i).
Proof.
  induction 1 as [|f' _ IH]; [trivial|].
  intros H. now apply star_ends_mono, IH.
Qed.

Lemma star_ends_sound a step :
  (forall i j, In j (step i) -> Matches a i j) ->
  forall fuel i j, In j (star_ends step fuel i) -> Matches (RStar a) i j.
Proof.
  intros Hstep. induction fuel as [|fuel IH]; intros i j; cbn [star_ends].
  - intros [<-|[]]. constructor.
  - intros H. apply in_app_or in H. destruct H as [H|[<-|[]]]; [|constructor].
    apply in_flat_map in H. destruct H as (k & Hk & Hj).
    destruct (Nat.ltb i k); [|contradiction].
    eapply MStarCons; [apply Hstep, Hk | apply IH, Hj].
Qed.

Lemma ends_sound r : forall i j, In j (ends r i) -> Matches r i j.
Proof.
  induction r as [| c | | | | a IHa b IHb | a IHa b IHb | a IHa];
    intros i j; cbn [Fragment.ends].
  - intros [<-|[]]. constructor.
  - destruct (nth_error text i) as [x|] eqn:Hx; [|contradiction].
    destruct (char_eq flags x c) eqn:Hc; [|contradiction].
    intros [<-|[]]. econstructor; eassumption.
  - destruct (nth_error text i) as [x|] eqn:Hx; [|contradiction].
    destruct (any_ok flags x) eqn:Hc; [|contradiction].
    intros [<-|[]]. econstructor; eassumption.
  - destruct (Nat.eqb i 0) eqn:Hi; [|contradiction].
    apply Nat.eqb_eq in Hi. subst. intros [<-|[]]. constructor.
  - destruct (at_eol text i) eqn:Hi; [|contradiction].
    intros [<-|[]]. now constructor.
  - intros H. apply in_flat_map in H. destruct H as (k & Hk & Hj).
    eapply MSeq; [apply IHa, Hk | apply IHb, Hj].
  - intros H. apply in_app_or in H.
    destruct H as [H|H]; [apply MAltL, IHa, H | apply MAltR, IHb, H].
  - apply star_ends_sound. exact IHa.
Qed.

Lemma ends_complete r i j :
  Matches r i j -> (i <= List.length text)%nat -> In j (ends r i).
Proof.
  induction 1 as [ i | c x i Hx Hc | x i Hx Hc | | i Hi
                 | a b i k j Ha IHa Hb IHb | a b i j Ha IHa | a b i j Hb IHb
                 | a i | a i k j Ha IHa Hs IHs ];
    intros Hlen; cbn [Fragment.ends].
  - now left.
  - rewrite Hx, Hc. now left.
  - rewrite Hx, Hc. now left.
  - now left.
  - rewrite Hi. now left.
  - apply in_flat_map. exists k. split; [now apply IHa|].
    apply IHb. eapply Matches_bound; eassumption.
  - apply in_or_app. left. now apply IHa.
  - apply in_or_app. right. now apply IHb.
  - apply star_ends_self.
  - assert (Hk : (k <= List.length text)%nat)
      by (eapply Matches_bound; eassumption).
    specialize (IHa Hlen). specialize (IHs Hk). cbn [Fragment.ends] in IHs.
    pose proof (Matches_le Ha) as Hik.
    destruct (Nat.eq_dec k i) as [->|Hne]; [exact IHs|].
    replace (S (List.length text) - i)%nat
      with (S (List.length text - i)) by lia.
    cbn [star_ends]. apply in_or_app. left.
    apply in_flat_map. exists k. split; [assumption|].
    replace (Nat.ltb i k) with true by (symmetry; apply Nat.ltb_lt; lia).
    eapply star_ends_mono_le; [|exact IHs]. lia.
Qed.

Lemma match_at_iff r pos :
  (pos <= List.length text)%nat ->
  (exists e, match_at (r, flags) text pos = Some e) <->
  (exists j, Matches r pos j).
Proof.
  intros Hpos. unfold match_at. cbn [fst snd]. split.
  - intros (e & He). exists e. apply ends_sound.
    destruct (ends r pos); [discriminate|]. inversion He. now left.
  - intros (j & Hj). apply ends_complete in Hj; [|assumption].
    destruct (ends r pos) as [|e l]; [contradiction|]. now exists e.
Qed.

End EngineFacts.

Lemma compile_flags pattern flags r fl :
  compile pattern flags = Ok (r, fl) -> fl = flags.
Proof.
  unfold compile. destruct (Z.land flags known_flags =? flags); [|discriminate].
  destruct (has_flag flags IGNORECASE && negb (ascii_only pattern));
    [discriminate|].
  destruct (parse pattern empty_frame []); [|discriminate].
  intros H. now inversion H.
Qed.

End FragmentFacts.

(** C7.  [stdout_matches] is a search, not a full match.  For every
    engine, text, pattern and flags, once the pattern compiles the
    result is true exactly when the compiled pattern matches from some
    start position of the text, and false exactly when it matches
    from none.  For the reference engine this says: exactly when the
    pattern matches some slice [text[i:j]].  In particular the pattern
    [OK] is found in [xxOKyy], which it does not match in full. *)
Theorem stdout_matches_is_search :
  (forall (E : SreEngine) (text pattern : pystr) (flags : Z)
          (p : sre_pattern),
      sre_compile pattern flags = Ok p ->
      (stdout_matches (VStr text) pattern flags = Ok true <->
       exists pos e, (pos <= List.length text)%nat
                     /\ sre_match p text pos = Some e)
      /\ (stdout_matches (VStr text) pattern flags = Ok false <->
          forall pos, (pos <= List.length text)%nat ->
                      sre_match p text pos = None))
  /\ (forall (text pattern : pystr) (flags : Z) (r : rexp) (fl : Z),
         Fragment.compile pattern flags = Ok (r, fl) ->
         @stdout_matches Fragment.engine (VStr text) pattern flags = Ok true
         <-> exists i j, (i <= j <= List.length text)%nat
                         /\ Fragment.Matches fl text r i j)
  /\ @stdout_matches Fragment.engine (VStr (lit "xxOKyy")) (lit "OK") 0
     = Ok true
  /\ @re_fullmatch Fragment.engine (lit "OK") (VStr (lit "xxOKyy")) 0
     = Ok false.
Proof.
  split; [|split; [|split; reflexivity]].
  - intros E text pattern flags p H. split.
    + now apply stdout_matches_true_iff.
    + now apply stdout_matches_false_iff.
  - intros text pattern flags r fl H.
    pose proof (FragmentFacts.compile_flags _ _ H) as ->.
    rewrite (@stdout_matches_true_iff Fragment.engine pattern flags
               (r, flags) text H).
    split.
    + intros (pos & e & Hpos & Hm).
      destruct (proj1 (FragmentFacts.match_at_iff flags text r Hpos))
        as (j & Hj); [now exists e|].
      exists pos, j. split; [|assumption]. split.
      * eapply FragmentFacts.Matches_le; eassumption.
      * eapply FragmentFacts.Matches_bound; eassumption.
    + intros (i & j & Hij & Hm).
      assert (Hi : (i <= List.length text)%nat) by lia.
      destruct (proj2 (FragmentFacts.match_at_iff flags text r Hi))
        as (e & He); [now exists j|].
      now exists i, e.
Qed.

Lemma stdout_matches_is_search_witness :
  @sre_compile Fragment.engine (lit "OK") 0
    = Ok (RSeq (RLit 79) (RSeq (RLit 75) REmpty), 0)
  /\ exists pos e, (pos <= List.length (lit "xxOKyy"))%nat
       /\ @sre_match Fragment.engine
            (RSeq (RLit 79) (RSeq (RLit 75) REmpty), 0) (lit "xxOKyy") pos
          = Some e.
Proof.
  split; [reflexivity|].
  apply (proj1 (proj1 (proj1 stdout_matches_is_search Fragment.engine
                         (lit "xxOKyy") (lit "OK") 0 _ eq_refl))).
  reflexivity.
Defined.

(** ** The decoding of [--input] *)

Lemma Ok_inj {A} (a b : A) : Ok a = Ok b -> a = b.
Proof. intros H. now inversion H. Qed.

Lemma utf8_encode_char_ascii c : is_ascii c -> utf8_encode_char c = Ok [c].
Proof.
  unfold is_ascii, utf8_encode_char. intros H.
  replace (c <? 0) with false by (symmetry; apply Z.ltb_ge; lia).
  replace (c <? 128) with true by (symmetry; apply Z.ltb_lt; lia).
  reflexivity.
Qed.

Lemma utf8_encode_ascii s : Forall is_ascii s -> utf8_encode s = Ok s.
Proof.
  induction 1 as [|c s Hc _ IH]; [reflexivity|].
  cbn [utf8_encode]. rewrite (utf8_encode_char_ascii Hc), IH. reflexivity.
Qed.

Lemma lor_high_bit_ne_backslash hi x :
  Z.testbit hi 7 = true -> Z.lor hi x <> BACKSLASH.
Proof.
  intros Hhi Heq.
  assert (Hb : Z.testbit (Z.lor hi x) 7 = true)
    by (rewrite Z.lor_spec, Hhi; reflexivity).
  rewrite Heq in Hb. discriminate Hb.
Qed.

(** Only a backslash is encoded with the byte of the backslash. *)
Lemma utf8_encode_char_no_backslash c bs :
  utf8_encode_char c = Ok bs -> c <> BACKSLASH -> ~ In BACKSLASH bs.
Proof.
  unfold utf8_encode_char.
  destruct (c <? 0); [discriminate|].
  destruct (c <? 128).
  { intros H%Ok_inj Hc. subst bs. intros [Hin|[]]. congruence. }
  destruct (c <? 2048).
  { intros H%Ok_inj _. subst bs. cbn [In].
    intros [Hin|[Hin|[]]];
      revert Hin; now apply lor_high_bit_ne_backslash. }
  destruct (c <? 65536).
  { destruct (is_surrogate c); [discriminate|].
    intros H%Ok_inj _. subst bs. cbn [In].
    intros [Hin|[Hin|[Hin|[]]]];
      revert Hin; now apply lor_high_bit_ne_backslash. }
  destruct (c <=? MAX_UNICODE); [|discriminate].
  intros H%Ok_inj _. subst bs. cbn [In].
  intros [Hin|[Hin|[Hin|[Hin|[]]]]];
    revert Hin; now apply lor_high_bit_ne_backslash.
Qed.

Lemma utf8_encode_cons c s bs :
  utf8_encode (c :: s) = Ok bs ->
  exists b1 b2, utf8_encode_char c = Ok b1 /\ utf8_encode s = Ok b2
                /\ bs = b1 ++ b2.
Proof.
  cbn [utf8_encode]. destruct (utf8_encode_char c) as [b1|]; [|discriminate].
  cbn [rbind]. destruct (utf8_encode s) as [b2|]; [|discriminate].
  cbn [rbind]. intros H. inversion H. now exists b1, b2.
Qed.

Lemma utf8_encode_no_backslash s :
  forall bs, utf8_encode s = Ok bs -> ~ In BACKSLASH s -> ~ In BACKSLASH bs.
Proof.
  induction s as [|c s IH]; intros bs H Hs.
  - inversion H. auto.
  - apply utf8_encode_cons in H. destruct H as (b1 & b2 & H1 & H2 & ->).
    intros Hin. apply in_app_or in Hin. destruct Hin as [Hin|Hin].
    + revert Hin. apply (utf8_encode_char_no_backslash H1).
      intros ->. apply Hs. now left.
    + revert Hin. apply (IH _ H2). intros Hin. apply Hs. now right.
Qed.

Lemma utf8_encode_char_length c bs :
  utf8_encode_char c = Ok bs ->
  (1 <= List.length bs)%nat /\ (128 <= c -> (2 <= List.length bs)%nat).
Proof.
  unfold utf8_encode_char.
  destruct (c <? 0); [discriminate|].
  destruct (c <? 128) eqn:H128.
  { intros H%Ok_inj. subst bs. cbn [List.length]. apply Z.ltb_lt in H128. lia. }
  destruct (c <? 2048); [intros H%Ok_inj; subst bs; cbn [List.length]; lia|].
  destruct (c <? 65536).
  { destruct (is_surrogate c); [discriminate|].
    intros H%Ok_inj; subst bs; cbn [List.length]; lia. }
  destruct (c <=? MAX_UNICODE); [|discriminate].
  intros H%Ok_inj; subst bs; cbn [List.length]; lia.
Qed.

Lemma utf8_encode_length s :
  forall bs, utf8_encode s = Ok bs ->
    (List.length s <= List.length bs)%nat
    /\ ((exists c, In c s /\ 128 <= c) ->
        (List.length s < List.length bs)%nat).
Proof.
  induction s as [|c s IH]; intros bs H.
  - inversion H. split; [cbn; lia|]. intros (c & [] & _).
  - apply utf8_encode_cons in H. destruct H as (b1 & b2 & H1 & H2 & ->).
    destruct (@utf8_encode_char_length _ _ H1) as [Hl1 Hl2].
    destruct (IH _ H2) as [Hs1 Hs2].
    rewrite length_app. cbn [List.length]. split; [lia|].
    intros (x & [<-|Hin] & Hx).
    + specialize (Hl2 Hx). lia.
    + assert (List.length s < List.length b2)%nat by (apply Hs2; eauto). lia.
Qed.

(** The codec knows every pair of the specification's table, with
    the same meaning, and no other one-character escape. *)
Lemma spec_escape_codec e : spec_escape e = simple_escape e.
Proof.
  unfold spec_escape, spec_escape_table, simple_escape. cbn [assoc_z].
  repeat match goal with
         | |- context [e =? ?k] =>
             destruct (Z.eqb_spec e k); [subst e; reflexivity|]
         end.
  reflexivity.
Qed.

Section DecodeFacts.
Variable ucd : pybytes -> option Z.

Lemma decode_plain c s :
  c <> BACKSLASH ->
  unicode_escape_decode ucd (c :: s)
  = cons_ok c (unicode_escape_decode ucd s).
Proof.
  intros Hc. cbn [unicode_escape_decode].
  replace (c =? BACKSLASH) with false by (symmetry; now apply Z.eqb_neq).
  reflexivity.
Qed.

Lemma decode_simple_escape e x s :
  simple_escape e = Some x ->
  unicode_escape_decode ucd (BACKSLASH :: e :: s)
  = cons_ok x (unicode_escape_decode ucd s).
Proof.
  intros He. cbn [unicode_escape_decode]. rewrite Z.eqb_refl. cbn [negb].
  rewrite He. reflexivity.
Qed.

(** Bytes without a backslash are decoded as Latin-1: each byte is the
    code point of the same value. *)
Lemma decode_no_backslash bs :
  ~ In BACKSLASH bs -> unicode_escape_decode ucd bs = Ok bs.
Proof.
  induction bs as [|b bs IH]; intros H; [reflexivity|].
  rewrite decode_plain by (intros ->; apply H; now left).
  rewrite IH by (intros Hin; apply H; now right). reflexivity.
Qed.

Lemma decode_spec_escapes_bytes n :
  forall s d, (List.length s <= n)%nat ->
    spec_decode_escapes s = Some d -> unicode_escape_decode ucd s = Ok d.
Proof.
  induction n as [|n IH]; intros s d Hlen.
  - destruct s; [|cbn in Hlen; lia]. cbn. intros H. now inversion H.
  - destruct s as [|c s1]; [cbn; intros H; now inversion H|].
    cbn [spec_decode_escapes]. destruct (c =? BACKSLASH) eqn:Hc.
    + apply Z.eqb_eq in Hc. subst c.
      destruct s1 as [|e s2]; [discriminate|].
      destruct (spec_escape e) as [x|] eqn:He; [|discriminate].
      rewrite spec_escape_codec in He.
      destruct (spec_decode_escapes s2) as [d'|] eqn:Hd; [|discriminate].
      cbn [option_map]. intros H. inversion H; subst.
      rewrite (@decode_simple_escape e x s2 He).
      rewrite (IH s2 d') by (cbn in Hlen; try lia; assumption).
      reflexivity.
    + apply Z.eqb_neq in Hc.
      destruct (spec_decode_escapes s1) as [d'|] eqn:Hd; [|discriminate].
      cbn [option_map]. intros H. inversion H; subst.
      rewrite (@decode_plain c s1 Hc).
      rewrite (IH s1 d') by (cbn in Hlen; try lia; assumption).
      reflexivity.
Qed.

Lemma decode_input_spec_escapes s d :
  Forall is_ascii s -> spec_decode_escapes s = Some d ->
  decode_input ucd s = Ok d.
Proof.
  intros Ha Hd. unfold decode_input. rewrite (utf8_encode_ascii Ha).
  cbn [rbind]. eapply decode_spec_escapes_bytes; [apply Nat.le_refl|exact Hd].
Qed.

Lemma decode_input_no_backslash s bs :
  ~ In BACKSLASH s -> utf8_encode s = Ok bs -> decode_input ucd s = Ok bs.
Proof.
  intros Hs He. unfold decode_input. rewrite He. cbn [rbind].
  apply decode_no_backslash. eapply utf8_encode_no_backslash; eassumption.
Qed.

End DecodeFacts.

(** The child is spawned once, with the decoded input on its stdin. *)
Lemma main_spawned {P : Platform} {E : SreEngine} (args : Namespace)
      (stdin_text : pystr) :
  decode_input ucd_lookup (input args) = Ok stdin_text ->
  spawned (main args) = [(cmd args, stdin_text, timeout args)].
Proof.
  intros Hdec.
  destruct (run_java (cmd args) stdin_text (timeout args)) as [rr|e] eqn:Hrun.
  2:{ rewrite (main_run_fails _ Hdec Hrun). reflexivity. }
  rewrite (main_after_run _ Hdec Hrun).
  destruct (require_zero_exit args && negb (returncode rr =? 0)).
  { apply spawned_preamble. intros e He. apply in_map_iff in He.
    destruct He as (l & <- & _). exact I. }
  destruct (stdout_matches (stdout rr) (regex args) (main_flags args))
    as [[|]|e].
  - apply spawned_preamble. intros e [<-|[]]. exact I.
  - apply spawned_preamble. intros e He. apply in_map_iff in He.
    destruct He as (l & <- & _). exact I.
  - rewrite <- (app_nil_r (preamble args stdin_text rr)).
    apply spawned_preamble. intros e0 [].
Qed.

(** C8.  The [--input] value is decoded before the child is started,
    and the decoded text is what the runner hands to [subprocess.run]
    as the child's stdin: the one spawn of the run carries it, and the
    verdict of [main] is the verdict on the output of the child that
    was started with it.  On an ASCII input the decoding is the one
    the specification describes: each two-character sequence of a
    backslash and [n], [t], [r], a backslash or another character of
    its table becomes the character it stands for, wherever an escape
    starts, and the rest is unchanged; at the level of the bytes this
    holds for every input.  In particular the four characters [a],
    backslash, [n], [b] give the lines [a] and [b]. *)
Theorem input_escapes_decoded :
  (forall (P : Platform) (E : SreEngine) (args : Namespace) (d : pystr),
      Forall is_ascii (input args) ->
      spec_decode_escapes (input args) = Some d ->
      decode_input ucd_lookup (input args) = Ok d
      /\ fst (run_java_io (cmd args) d (timeout args))
         = [Spawn (cmd args) d (timeout args)]
      /\ spawned (main args) = [(cmd args, d, timeout args)]
      /\ (forall cp,
            subprocess_run (cmd args) d (timeout args) = Ok cp ->
            require_zero_exit args = false \/ cp_returncode cp = 0 ->
            snd (main args)
            = match stdout_matches (VStr (cp_stdout cp)) (regex args)
                      (main_flags args) with
              | Ok true => Ok 0
              | Ok false => Ok 1
              | Raise e => Raise e
              end))
  /\ (forall (ucd : pybytes -> option Z) (s : pystr) (bs : pybytes)
             (d : pystr),
         utf8_encode s = Ok bs ->
         spec_decode_escapes bs = Some d ->
         decode_input ucd s = Ok d)
  /\ (forall (ucd : pybytes -> option Z) (e x : Z) (s : pybytes),
         spec_escape e = Some x ->
         unicode_escape_decode ucd (BACKSLASH :: e :: s)
         = rbind (unicode_escape_decode ucd s) (fun d => Ok (x :: d)))
  /\ (forall ucd : pybytes -> option Z,
         decode_input ucd (lit "a\nb") = Ok [97; NEWLINE; 98]).
Proof.
  split; [|split; [|split]].
  - intros P E args d Ha Hd.
    assert (Hdec : decode_input ucd_lookup (input args) = Ok d)
      by now apply decode_input_spec_escapes.
    split; [assumption|]. split; [now rewrite run_java_io_eq|].
    split; [now apply main_spawned|].
    intros cp Hcp Hbranch.
    pose proof (run_java_completed _ _ _ Hcp) as Hrun.
    rewrite (main_after_run _ Hdec Hrun). cbn [returncode stdout].
    assert (Hb : require_zero_exit args && negb (cp_returncode cp =? 0)
                 = false).
    { destruct Hbranch as [-> | ->]; [reflexivity|]. now rewrite andb_false_r. }
    rewrite Hb.
    destruct (stdout_matches (VStr (cp_stdout cp)) (regex args)
                (main_flags args)) as [[|]|e]; reflexivity.
  - intros ucd s bs d He Hd. unfold decode_input. rewrite He. cbn [rbind].
    eapply decode_spec_escapes_bytes; [apply Nat.le_refl|exact Hd].
  - intros ucd e x s He. rewrite spec_escape_codec in He.
    exact (@decode_simple_escape ucd e x s He).
  - reflexivity.
Qed.

Lemma input_escapes_decoded_witness :
  spec_decode_escapes (lit "a\nb") = Some [97; NEWLINE; 98]
  /\ spawned (@main cat_child Fragment.engine
                (run_args cat_child (lit "2.0") (lit "a\nb") (lit "a.b")
                          false))
     = [([lit "java"; lit "Main"], [97; NEWLINE; 98], lit "2.0")]
  /\ snd (@main cat_child Fragment.engine
            (run_args cat_child (lit "2.0") (lit "a\nb") (lit "a.b")
                      false))
     = Ok 1.
Proof.
  split; [reflexivity|].
  assert (Ha : Forall is_ascii (lit "a\nb"))
    by (repeat constructor; unfold is_ascii; lia).
  destruct (proj1 input_escapes_decoded cat_child Fragment.engine
              (run_args cat_child (lit "2.0") (lit "a\nb") (lit "a.b") false)
              [97; NEWLINE; 98] Ha eq_refl)
    as (_ & _ & Hspawn & Hverdict).
  split; [exact Hspawn|].
  exact (Hverdict
           {| cp_returncode := 0; cp_stdout := [97; NEWLINE; 98];
              cp_stderr := [] |} eq_refl (or_introl eq_refl)).
Defined.

(** C10.  The decoding is not confined to the escape sequences: the
    whole input is encoded as UTF-8 and each byte that belongs to no
    escape is read as a Latin-1 character.  So an input without any
    backslash is replaced by the bytes of its UTF-8 encoding, and as
    soon as it holds a character that is not ASCII the text that the
    child gets on its stdin differs from the input; the one-character
    input U+00E9 becomes the two characters U+00C3 U+00A9. *)
Theorem input_decoding_not_confined_to_escapes :
  (forall ucd : pybytes -> option Z,
      exists input d,
        (exists c, In c input /\ ~ is_ascii c)
        /\ ~ In BACKSLASH input
        /\ decode_input ucd input = Ok d
        /\ d <> input)
  /\ (forall ucd : pybytes -> option Z,
         decode_input ucd [233] = Ok [195; 169])
  /\ (forall (ucd : pybytes -> option Z) (input : pystr) (bs : pybytes),
         ~ In BACKSLASH input ->
         utf8_encode input = Ok bs ->
         decode_input ucd input = Ok bs)
  /\ (forall (P : Platform) (E : SreEngine) (args : Namespace) (d : pystr),
         ~ In BACKSLASH (input args) ->
         (exists c, In c (input args) /\ 128 <= c) ->
         decode_input ucd_lookup (input args) = Ok d ->
         spawned (main args) = [(cmd args, d, timeout args)]
         /\ d <> input args).
Proof.
  split; [|split; [|split]].
  - intros ucd. exists [233], [195; 169]. repeat split.
    + exists 233. split; [now left|]. unfold is_ascii. lia.
    + intros [H|[]]. discriminate H.
    + discriminate.
  - reflexivity.
  - intros ucd input bs Hs He. now apply decode_input_no_backslash.
  - intros P E args d Hs Hc Hdec. split; [now apply main_spawned|].
    destruct (utf8_encode (input args)) as [bs|e] eqn:He.
    2:{ unfold decode_input in Hdec. rewrite He in Hdec. discriminate. }
    rewrite (@decode_input_no_backslash ucd_lookup _ _ Hs He) in Hdec.
    apply Ok_inj in Hdec. subst d.
    destruct (@utf8_encode_length _ _ He) as [_ Hlt]. specialize (Hlt Hc).
    intros Heq. rewrite Heq in Hlt. lia.
Qed.

Lemma input_decoding_not_confined_to_escapes_witness :
  ~ In BACKSLASH [233]
  /\ spawned (@main cat_child Fragment.engine
                (run_args cat_child (lit "2.0") [233] (lit "x") false))
     = [([lit "java"; lit "Main"], [195; 169], lit "2.0")]
  /\ [195; 169] <> [233].
Proof.
  assert (Hs : ~ In BACKSLASH [233]) by (intros [H|[]]; discriminate H).
  split; [exact Hs|].
  refine (proj2 (proj2 (proj2 input_decoding_not_confined_to_escapes))
            cat_child Fragment.engine
            (run_args cat_child (lit "2.0") [233] (lit "x") false)
            [195; 169] Hs _ eq_refl).
  exists 233. split; [now left|lia].
Defined.

(** * Further properties of the code *)

(** ** The reporter *)

(** X1.  [--verbose] only adds an echo: when the runner returns, the
    run with the flag prints [str(rr.stdout)] to the primary stream
    before anything else and otherwise prints, returns or raises what
    the run without the flag does; when the input cannot be decoded or
    the runner raises, nothing is echoed. *)
Theorem verbose_only_echoes :
  forall (P : Platform) (E : SreEngine) (args : Namespace),
    (forall stdin_text rr,
        decode_input ucd_lookup (input args) = Ok stdin_text ->
        run_java (cmd args) stdin_text (timeout args) = Ok rr ->
        snd (main (with_verbose true args))
          = snd (main (with_verbose false args))
        /\ printed_err (main (with_verbose true args))
           = printed_err (main (with_verbose false args))
        /\ printed_out (main (with_verbose true args))
           = py_str (stdout rr) :: printed_out (main (with_verbose false args)))
    /\ ((forall rr stdin_text,
            decode_input ucd_lookup (input args) = Ok stdin_text ->
            run_java (cmd args) stdin_text (timeout args) <> Ok rr) ->
        main (with_verbose true args) = main (with_verbose false args)).
Proof.
  intros P E args. split.
  - intros stdin_text rr Hdec Hrun.
    rewrite (@main_after_run P E (with_verbose true args) stdin_text rr
               Hdec Hrun).
    rewrite (@main_after_run P E (with_verbose false args) stdin_text rr
               Hdec Hrun).
    cbn [with_verbose require_zero_exit returncode regex main_flags dotall
         ignorecase].
    destruct (require_zero_exit args && negb (returncode rr =? 0)).
    { repeat split. }
    change (main_flags (with_verbose true args)) with (main_flags args).
    change (main_flags (with_verbose false args)) with (main_flags args).
    destruct (stdout_matches (stdout rr) (regex args) (main_flags args))
      as [[|]|e]; repeat split.
  - intros Hno.
    destruct (decode_input ucd_lookup (input args)) as [stdin_text|e] eqn:Hdec.
    2:{ rewrite (@main_decode_fails P E (with_verbose true args) e Hdec).
        rewrite (@main_decode_fails P E (with_verbose false args) e Hdec).
        reflexivity. }
    destruct (run_java (cmd args) stdin_text (timeout args)) as [rr|e] eqn:Hrun.
    { now elim (Hno rr stdin_text). }
    rewrite (@main_run_fails P E (with_verbose true args) stdin_text e
               Hdec Hrun).
    rewrite (@main_run_fails P E (with_verbose false args) stdin_text e
               Hdec Hrun).
    reflexivity.
Qed.

Lemma verbose_only_echoes_witness :
  printed_out (@main cat_child Fragment.engine
                 (with_verbose true
                    (run_args cat_child (lit "2.0") (lit "hi") (lit "h")
                              false)))
  = lit "hi"
    :: printed_out (@main cat_child Fragment.engine
                      (with_verbose false
                         (run_args cat_child (lit "2.0") (lit "hi") (lit "h")
                                   false))).
Proof.
  exact (proj2 (proj2 (proj1 (@verbose_only_echoes cat_child Fragment.engine
    (run_args cat_child (lit "2.0") (lit "hi") (lit "h") false))
    (lit "hi")
    {| ok := true; returncode := 0; stdout := VStr (lit "hi"); stderr := [] |}
    eq_refl eq_refl))).
Defined.

(** X2.  [--require-zero-exit] only adds a way to fail: a run with the
    flag either ends with status 2 or does exactly what the run
    without the flag does, and when the child ends with code 0 it is
    the latter.  So the flag never turns a failing run into a pass. *)
Theorem require_zero_exit_only_fails :
  forall (P : Platform) (E : SreEngine) (args : Namespace),
    (main (with_require_zero_exit true args)
       = main (with_require_zero_exit false args)
     \/ snd (main (with_require_zero_exit true args)) = Ok 2)
    /\ (forall stdin_text rr,
           decode_input ucd_lookup (input args) = Ok stdin_text ->
           run_java (cmd args) stdin_text (timeout args) = Ok rr ->
           returncode rr = 0 ->
           main (with_require_zero_exit true args)
           = main (with_require_zero_exit false args))
    /\ (exit_status (main (with_require_zero_exit true args)) = 0 ->
        exit_status (main (with_require_zero_exit false args)) = 0).
Proof.
  intros P E args.
  assert (Hmain :
    main (with_require_zero_exit true args)
      = main (with_require_zero_exit false args)
    \/ (snd (main (with_require_zero_exit true args)) = Ok 2
        /\ exists stdin_text rr,
             decode_input ucd_lookup (input args) = Ok stdin_text
             /\ run_java (cmd args) stdin_text (timeout args) = Ok rr
             /\ returncode rr <> 0)).
  { destruct (decode_input ucd_lookup (input args)) as [stdin_text|e] eqn:Hdec.
    2:{ left.
        rewrite (@main_decode_fails P E (with_require_zero_exit true args)
                   e Hdec).
        now rewrite (@main_decode_fails P E
                       (with_require_zero_exit false args) e Hdec). }
    destruct (run_java (cmd args) stdin_text (timeout args)) as [rr|e] eqn:Hrun.
    2:{ left.
        rewrite (@main_run_fails P E (with_require_zero_exit true args)
                   stdin_text e Hdec Hrun).
        now rewrite (@main_run_fails P E (with_require_zero_exit false args)
                       stdin_text e Hdec Hrun). }
    rewrite (@main_after_run P E (with_require_zero_exit true args)
               stdin_text rr Hdec Hrun).
    rewrite (@main_after_run P E (with_require_zero_exit false args)
               stdin_text rr Hdec Hrun).
    cbn [with_require_zero_exit require_zero_exit andb].
    destruct (returncode rr =? 0) eqn:Hrc; cbn [negb].
    - left. reflexivity.
    - right. split; [reflexivity|]. exists stdin_text, rr.
      apply Z.eqb_neq in Hrc. auto. }
  split; [|split].
  - destruct Hmain as [H|[H _]]; auto.
  - intros stdin_text rr Hdec Hrun Hrc.
    destruct Hmain as [H|(_ & s' & rr' & Hdec' & Hrun' & Hne)]; [exact H|].
    rewrite Hdec in Hdec'. apply Ok_inj in Hdec'. subst s'.
    rewrite Hrun in Hrun'. apply Ok_inj in Hrun'. subst rr'.
    contradiction.
  - destruct Hmain as [H|[H _]].
    + now rewrite H.
    + unfold exit_status at 1. rewrite H. discriminate.
Qed.

Lemma require_zero_exit_only_fails_witness :
  @main cat_child Fragment.engine
    (with_require_zero_exit true
       (run_args cat_child (lit "2.0") (lit "hi") (lit "h") false))
  = @main cat_child Fragment.engine
      (with_require_zero_exit false
         (run_args cat_child (lit "2.0") (lit "hi") (lit "h") false)).
Proof.
  exact (proj1 (proj2 (@require_zero_exit_only_fails cat_child Fragment.engine
    (run_args cat_child (lit "2.0") (lit "hi") (lit "h") false)))
    (lit "hi")
    {| ok := true; returncode := 0; stdout := VStr (lit "hi"); stderr := [] |}
    eq_refl eq_refl eq_refl).
Defined.



(** X4.  No retries: on every way through it, normal termination,
    timeout, command not found or another exception, the runner calls
    [subprocess.run] once, and [main] calls the runner at most once:
    the child is spawned once, with the command and the timeout of the
    arguments and the decoded input as its stdin, and not at all when
    the input cannot be decoded. *)
Theorem child_spawned_at_most_once :
  forall (P : Platform) (E : SreEngine) (args : Namespace),
    (forall java_cmd stdin_text timeout_s,
        fst (run_java_io java_cmd stdin_text timeout_s)
        = [Spawn java_cmd stdin_text timeout_s]
        /\ snd (run_java_io java_cmd stdin_text timeout_s)
           = run_java java_cmd stdin_text timeout_s)
    /\ spawned (main args) =
         match decode_input ucd_lookup (input args) with
         | Ok stdin_text => [(cmd args, stdin_text, timeout args)]
         | Raise _ => []
         end.
Proof.
  intros P E args. split.
  - intros java_cmd stdin_text timeout_s. now rewrite run_java_io_eq.
  - destruct (decode_input ucd_lookup (input args)) as [stdin_text|e] eqn:Hdec.
    + now apply main_spawned.
    + rewrite (main_decode_fails _ Hdec). reflexivity.
Qed.

(** X5.  A pattern that does not compile is found only at match time:
    the child has been spawned by then, and when the branch of the
    non-zero exit code is not taken the error of the compiler leaves
    [main] as it is, with no report on the diagnostic stream and
    status 1. *)
Theorem invalid_pattern_raises_after_run :
  forall (P : Platform) (E : SreEngine) (args : Namespace)
         (stdin_text : pystr) (rr : RunResult) (e : exn),
    decode_input ucd_lookup (input args) = Ok stdin_text ->
    run_java (cmd args) stdin_text (timeout args) = Ok rr ->
    require_zero_exit args = false \/ returncode rr = 0 ->
    sre_compile (regex args) (main_flags args) = Raise e ->
    snd (main args) = Raise e
    /\ exit_status (main args) = 1
    /\ printed_err (main args) = []
    /\ spawned (main args) = [(cmd args, stdin_text, timeout args)].
Proof.
  intros P E args stdin_text rr e Hdec Hrun Hbranch Hc.
  assert (Hm : stdout_matches (stdout rr) (regex args) (main_flags args)
               = Raise e)
    by (unfold stdout_matches, re_search; now rewrite Hc).
  assert (Hb : require_zero_exit args && negb (returncode rr =? 0) = false).
  { destruct Hbranch as [-> | ->]; [reflexivity|]. now rewrite andb_false_r. }
  split; [|split; [|split]].
  - rewrite (main_after_run _ Hdec Hrun), Hb, Hm. reflexivity.
  - rewrite (main_after_run _ Hdec Hrun), Hb, Hm. reflexivity.
  - rewrite (main_after_run _ Hdec Hrun), Hb, Hm.
    rewrite <- (app_nil_r (preamble args stdin_text rr)).
    rewrite printed_err_preamble. reflexivity.
  - now apply main_spawned.
Qed.

Lemma invalid_pattern_raises_after_run_witness :
  @sre_compile Fragment.engine (lit "*a") 0 = Raise ReError
  /\ snd (@main cat_child Fragment.engine
            (run_args cat_child (lit "2.0") (lit "hi") (lit "*a") false))
     = Raise ReError.
Proof.
  split; [reflexivity|].
  exact (proj1 (@invalid_pattern_raises_after_run cat_child Fragment.engine
    (run_args cat_child (lit "2.0") (lit "hi") (lit "*a") false)
    (lit "hi")
    {| ok := true; returncode := 0; stdout := VStr (lit "hi"); stderr := [] |}
    ReError eq_refl eq_refl (or_introl eq_refl) eq_refl)).
Defined.

(** ** The process runner *)

(** X6.  The [stdout] of a [RunResult] is never [None] and never an
    empty [bytes] object.  When [ok] is true the result comes from a
    child that ended with code 0 and carries its streams as text; a
    [stdout] that is a [bytes] object comes only from the timeout
    branch. *)
Theorem run_result_stdout_shape :
  forall (P : Platform) (java_cmd : list pystr) (stdin_text : pystr)
         (timeout_s : pyfloat) (rr : RunResult),
    run_java java_cmd stdin_text timeout_s = Ok rr ->
    stdout rr <> VNone
    /\ stdout rr <> VBytes []
    /\ (ok rr = true ->
        subprocess_run java_cmd stdin_text timeout_s
        = Ok {| cp_returncode := 0;
                cp_stdout := match stdout rr with VStr s => s | _ => [] end;
                cp_stderr := stderr rr |}
        /\ exists s, stdout rr = VStr s)
    /\ (forall b, stdout rr = VBytes b ->
                  returncode rr = 124 /\ ok rr = false).
Proof.
  intros P java_cmd stdin_text timeout_s rr H.
  destruct (run_java_result _ _ _ H) as [(cp & Hs) | [(o & e & Hs) | (m & Hs)]].
  - rewrite (run_java_completed _ _ _ Hs) in H. apply Ok_inj in H. subst rr.
    cbn [stdout ok returncode stderr]. repeat split; try discriminate.
    + apply Z.eqb_eq in H. rewrite Hs. destruct cp as [rc so se].
      cbn [cp_returncode] in H. subst rc. reflexivity.
    + eexists; reflexivity.
  - rewrite (run_java_timeout _ _ _ Hs) in H. apply Ok_inj in H. subst rr.
    cbn [stdout ok returncode stderr].
    repeat split; try discriminate;
      destruct o as [|[|c s]|[|c b]]; cbn; discriminate.
  - rewrite (run_java_not_found _ _ _ Hs) in H. apply Ok_inj in H. subst rr.
    cbn [stdout ok returncode stderr]. repeat split; discriminate.
Qed.

Lemma run_result_stdout_shape_witness :
  stdout {| ok := false; returncode := 124; stdout := VBytes (lit "partial");
            stderr := lit "Timed out after 2.0s" ++ [NEWLINE]
                      ++ lit "b'warn'" |} <> VNone.
Proof.
  exact (proj1 (@run_result_stdout_shape sleeping_child [lit "java"]
                  (lit "in") (lit "2.0") _ eq_refl)).
Defined.

(** X7.  [run_java] raises exactly the exceptions of [subprocess.run]
    that are neither [TimeoutExpired] nor [FileNotFoundError], each
    unchanged; so it never raises one of those two, and every other
    failure (a file that may not be executed, output that is no valid
    UTF-8) reaches the caller. *)
Theorem run_java_raises_iff :
  forall (P : Platform) (java_cmd : list pystr) (stdin_text : pystr)
         (timeout_s : pyfloat) (e : exn),
    run_java java_cmd stdin_text timeout_s = Raise e <->
    subprocess_run java_cmd stdin_text timeout_s = Raise e
    /\ (forall out err, e <> TimeoutExpired out err)
    /\ (forall msg, e <> FileNotFoundError msg).
Proof.
  intros P java_cmd stdin_text timeout_s e. split.
  - apply run_java_raises.
  - intros (Hs & Ht & Hf). unfold run_java. rewrite Hs.
    destruct e; try reflexivity.
    + now elim (Ht out err).
    + now elim (Hf msg).
Qed.

(** X8.  A timeout that left output as a [bytes] object.  The partial
    stdout is kept as that [bytes] object, and [re.search] refuses it:
    without the branch of the non-zero exit code, [main] ends with a
    [TypeError] once the pattern has compiled, instead of a report of
    the mismatch; with [--require-zero-exit] the report of the exit
    code shows the [repr] of the bytes. *)
Theorem timeout_with_bytes_output :
  forall (P : Platform) (E : SreEngine) (args : Namespace)
         (stdin_text : pystr) (c : Z) (b : pybytes) (err : pyval)
         (p : sre_pattern),
    decode_input ucd_lookup (input args) = Ok stdin_text ->
    subprocess_run (cmd args) stdin_text (timeout args)
      = Raise (TimeoutExpired (VBytes (c :: b)) err) ->
    sre_compile (regex args) (main_flags args) = Ok p ->
    (require_zero_exit args = false ->
     snd (main args) = Raise TypeError
     /\ exit_status (main args) = 1
     /\ printed_err (main args) = [])
    /\ (require_zero_exit args = true ->
        snd (main args) = Ok 2
        /\ In (bytes_repr (c :: b)) (printed_err (main args))).
Proof.
  intros P E args stdin_text c b err p Hdec Hsub Hc.
  pose proof (run_java_timeout _ _ _ Hsub) as Hrun.
  rewrite (main_after_run _ Hdec Hrun).
  cbn [returncode stdout stderr or_empty truthy Z.eqb negb].
  split; intros Hreq; rewrite Hreq; cbn [andb].
  - assert (Hm : stdout_matches (VBytes (c :: b)) (regex args)
                   (main_flags args) = Raise TypeError)
      by (unfold stdout_matches, re_search; now rewrite Hc).
    rewrite Hm. repeat split.
    match goal with
    | |- printed_err (?t, ?r) = [] =>
        rewrite <- (app_nil_r t)
    end.
    rewrite printed_err_preamble. reflexivity.
  - split; [reflexivity|]. rewrite printed_err_preamble.
    unfold printed_err, exit_report. cbn [fst map flat_map app stdout py_str].
    do 5 right. left. reflexivity.
Qed.

Lemma timeout_with_bytes_output_witness :
  snd (@main sleeping_child Fragment.engine
         (run_args sleeping_child (lit "2.0") (lit "in") (lit "partial")
                   false))
  = Raise TypeError.
Proof.
  exact (proj1 (proj1 (@timeout_with_bytes_output sleeping_child
    Fragment.engine
    (run_args sleeping_child (lit "2.0") (lit "in") (lit "partial") false)
    (lit "in") _ _ _ _ eq_refl eq_refl eq_refl) eq_refl)).
Defined.

(** ** The decoding of [--input] *)

Lemma utf8_encode_app a b :
  utf8_encode (a ++ b)
  = rbind (utf8_encode a) (fun x =>
    rbind (utf8_encode b) (fun y => Ok (x ++ y))).
Proof.
  induction a as [|c a IH]; cbn [app utf8_encode rbind].
  - destruct (utf8_encode b); reflexivity.
  - destruct (utf8_encode_char c) as [b1|e]; [|reflexivity]. cbn [rbind].
    rewrite IH. destruct (utf8_encode a) as [x|e]; [|reflexivity].
    cbn [rbind]. destruct (utf8_encode b) as [y|e]; [|reflexivity].
    cbn [rbind]. now rewrite app_assoc.
Qed.

Lemma decode_app_plain ucd bs rest :
  ~ In BACKSLASH bs ->
  unicode_escape_decode ucd (bs ++ rest)
  = rbind (unicode_escape_decode ucd rest) (fun d => Ok (bs ++ d)).
Proof.
  induction bs as [|b bs IH]; intros H; cbn [app].
  - destruct (unicode_escape_decode ucd rest); reflexivity.
  - rewrite decode_plain by (intros ->; apply H; now left).
    rewrite IH by (intros Hin; apply H; now right).
    unfold cons_ok. destruct (unicode_escape_decode ucd rest); reflexivity.
Qed.

(** A prefix whose bytes are decoded on their own: the rest of the
    input is decoded as if it stood alone. *)
Lemma decode_input_prefix ucd pre post bs out :
  utf8_encode pre = Ok bs ->
  (forall rest, unicode_escape_decode ucd (bs ++ rest)
                = rbind (unicode_escape_decode ucd rest)
                        (fun d => Ok (out ++ d))) ->
  decode_input ucd (pre ++ post)
  = rbind (decode_input ucd post) (fun d => Ok (out ++ d)).
Proof.
  intros Hpre Hdec. unfold decode_input. rewrite utf8_encode_app, Hpre.
  cbn [rbind]. destruct (utf8_encode post) as [y|e]; [|reflexivity].
  cbn [rbind]. apply Hdec.
Qed.

Lemma decode_unrecognised ucd e s :
  recognised_escape e = false ->
  unicode_escape_decode ucd (BACKSLASH :: e :: s)
  = cons_ok BACKSLASH (cons_ok e (unicode_escape_decode ucd s)).
Proof.
  unfold recognised_escape. intros H.
  cbn [unicode_escape_decode]. rewrite Z.eqb_refl. cbn [negb].
  destruct (simple_escape e); [discriminate|].
  repeat (apply orb_false_iff in H; destruct H as [H ?]).
  repeat match goal with
         | Hx : _ = false |- _ => rewrite Hx; clear Hx
         end.
  reflexivity.
Qed.

Lemma hexval_bounds c v :
  hexval c = Some v -> 0 <= v < 16 /\ is_ascii c.
Proof.
  unfold hexval, is_ascii.
  destruct ((48 <=? c) && (c <=? 57)) eqn:H1.
  { intros [= <-]. apply andb_true_iff in H1. lia. }
  destruct ((97 <=? c) && (c <=? 102)) eqn:H2.
  { intros [= <-]. apply andb_true_iff in H2. lia. }
  destruct ((65 <=? c) && (c <=? 70)) eqn:H3; [|discriminate].
  intros [= <-]. apply andb_true_iff in H3. lia.
Qed.

Lemma gtb_max_false ch : ch <= MAX_UNICODE -> (ch >? MAX_UNICODE) = false.
Proof. intros H. rewrite Z.gtb_ltb. now apply Z.ltb_ge. Qed.

Lemma decode_hex2 ucd h1 h2 a b s :
  hexval h1 = Some a -> hexval h2 = Some b ->
  unicode_escape_decode ucd (BACKSLASH :: 120 :: h1 :: h2 :: s)
  = cons_ok (a * 16 + b) (unicode_escape_decode ucd s).
Proof.
  intros Ha Hb. cbn [unicode_escape_decode]. rewrite Z.eqb_refl.
  cbn [negb simple_escape Z.eqb Pos.eqb is_octal Z.leb Z.compare Pos.compare
       Pos.compare_cont andb orb].
  rewrite Ha, Hb. cbn [Z.mul Z.add].
  destruct (hexval_bounds _ Ha), (hexval_bounds _ Hb).
  destruct s; lazy beta iota;
    rewrite gtb_max_false by (unfold MAX_UNICODE; lia); reflexivity.
Qed.

Lemma decode_hex4 ucd h1 h2 h3 h4 a b c d s :
  hexval h1 = Some a -> hexval h2 = Some b ->
  hexval h3 = Some c -> hexval h4 = Some d ->
  unicode_escape_decode ucd (BACKSLASH :: 117 :: h1 :: h2 :: h3 :: h4 :: s)
  = cons_ok (((a * 16 + b) * 16 + c) * 16 + d) (unicode_escape_decode ucd s).
Proof.
  intros Ha Hb Hc Hd. cbn [unicode_escape_decode]. rewrite Z.eqb_refl.
  cbn [negb simple_escape Z.eqb Pos.eqb is_octal Z.leb Z.compare Pos.compare
       Pos.compare_cont andb orb].
  rewrite Ha, Hb, Hc, Hd. cbn [Z.mul Z.add].
  destruct (hexval_bounds _ Ha), (hexval_bounds _ Hb),
    (hexval_bounds _ Hc), (hexval_bounds _ Hd).
  destruct s; lazy beta iota;
    rewrite gtb_max_false by (unfold MAX_UNICODE; lia); reflexivity.
Qed.

Lemma decode_input_escape ucd pre bs esc out post :
  ~ In BACKSLASH pre ->
  utf8_encode pre = Ok bs ->
  Forall is_ascii esc ->
  (forall rest, unicode_escape_decode ucd (esc ++ rest)
                = rbind (unicode_escape_decode ucd rest)
                        (fun d => Ok (out ++ d))) ->
  decode_input ucd (pre ++ esc ++ post)
  = rbind (decode_input ucd post) (fun d => Ok (bs ++ out ++ d)).
Proof.
  intros Hpre Hbs Hesc Hdec. rewrite app_assoc.
  rewrite (@decode_input_prefix ucd (pre ++ esc) post (bs ++ esc)
             (bs ++ out)).
  - destruct (decode_input ucd post); cbn [rbind]; [|reflexivity].
    now rewrite app_assoc.
  - rewrite utf8_encode_app, Hbs. cbn [rbind].
    now rewrite (utf8_encode_ascii Hesc).
  - intros rest. rewrite <- app_assoc.
    rewrite decode_app_plain
      by (eapply utf8_encode_no_backslash; eassumption).
    rewrite Hdec. destruct (unicode_escape_decode ucd rest); cbn [rbind];
      [|reflexivity].
    now rewrite app_assoc.
Qed.

(** X9.  Text without a backslash never changes how what follows it is
    decoded: the decoded input is the UTF-8 bytes of that text (the
    text itself when it is ASCII) followed by the decoding of the
    rest, and an error of the rest is the error of the whole. *)
Theorem plain_prefix_passes_through :
  forall (ucd : pybytes -> option Z) (pre post : pystr) (bs : pybytes),
    ~ In BACKSLASH pre ->
    utf8_encode pre = Ok bs ->
    decode_input ucd (pre ++ post)
    = rbind (decode_input ucd post) (fun d => Ok (bs ++ d))
    /\ (Forall is_ascii pre -> bs = pre).
Proof.
  intros ucd pre post bs Hpre Hbs. split.
  - apply decode_input_prefix with (bs := bs); [assumption|].
    intros rest. apply decode_app_plain.
    eapply utf8_encode_no_backslash; eassumption.
  - intros Ha. rewrite (utf8_encode_ascii Ha) in Hbs. now apply Ok_inj in Hbs.
Qed.

Lemma plain_prefix_passes_through_witness :
  decode_input (fun _ => None) (lit "ab" ++ lit "\tc")
  = rbind (decode_input (fun _ => None) (lit "\tc"))
          (fun d => Ok (lit "ab" ++ d)).
Proof.
  refine (proj1 (@plain_prefix_passes_through (fun _ => None) (lit "ab")
                   (lit "\tc") (lit "ab") _ eq_refl)).
  intros [H|[H|[]]]; discriminate H.
Defined.

(** X10.  An input that ends in a single backslash after text without
    backslashes cannot be decoded: [main] ends with a
    [UnicodeDecodeError] before the child is spawned, with nothing
    printed and status 1. *)
Theorem trailing_backslash_aborts :
  forall (P : Platform) (E : SreEngine) (args : Namespace)
         (pre : pystr) (bs : pybytes),
    input args = pre ++ [BACKSLASH] ->
    ~ In BACKSLASH pre ->
    utf8_encode pre = Ok bs ->
    main args = ([], Raise UnicodeDecodeError)
    /\ exit_status (main args) = 1
    /\ spawned (main args) = [].
Proof.
  intros P E args pre bs Hin Hpre Hbs.
  assert (Hdec : decode_input ucd_lookup (input args)
                 = Raise UnicodeDecodeError).
  { rewrite Hin.
    rewrite (@decode_input_prefix ucd_lookup pre [BACKSLASH] bs bs Hbs).
    - reflexivity.
    - intros rest. apply decode_app_plain.
      eapply utf8_encode_no_backslash; eassumption. }
  rewrite (main_decode_fails _ Hdec). repeat split.
Qed.

Lemma trailing_backslash_aborts_witness :
  @main cat_child Fragment.engine
    (run_args cat_child (lit "2.0") (lit "C:\") (lit "x") false)
  = ([], Raise UnicodeDecodeError).
Proof.
  refine (proj1 (@trailing_backslash_aborts cat_child Fragment.engine
    (run_args cat_child (lit "2.0") (lit "C:\") (lit "x") false)
    (lit "C:") (lit "C:") eq_refl _ eq_refl)).
  intros [H|[H|[]]]; discriminate H.
Defined.

(** X11.  A backslash before an ASCII character that starts no escape
    of the codec stays in the text together with that character. *)
Theorem unrecognised_escape_kept :
  forall (ucd : pybytes -> option Z) (pre : pystr) (bs : pybytes) (e : Z)
         (post : pystr),
    ~ In BACKSLASH pre ->
    utf8_encode pre = Ok bs ->
    is_ascii e ->
    recognised_escape e = false ->
    decode_input ucd (pre ++ BACKSLASH :: e :: post)
    = rbind (decode_input ucd post)
            (fun d => Ok (bs ++ BACKSLASH :: e :: d)).
Proof.
  intros ucd pre bs e post Hpre Hbs He Hrec.
  apply (@decode_input_escape ucd pre bs [BACKSLASH; e] [BACKSLASH; e] post
           Hpre Hbs).
  - repeat (apply Forall_cons;
            [first [assumption | unfold is_ascii, BACKSLASH; lia]|]).
    apply Forall_nil.
  - intros rest. cbn [app]. rewrite (@decode_unrecognised ucd e rest Hrec).
    unfold cons_ok. destruct (unicode_escape_decode ucd rest); reflexivity.
Qed.

Lemma unrecognised_escape_kept_witness :
  decode_input (fun _ => None) (lit "C:\dir") = Ok (lit "C:\dir").
Proof.
  refine (@unrecognised_escape_kept (fun _ => None) (lit "C:") (lit "C:")
            100 (lit "ir") _ eq_refl _ eq_refl).
  - intros [H|[H|[]]]; discriminate H.
  - unfold is_ascii. lia.
Defined.

(** X12.  The escapes [\xHH] and [\uHHHH] are decoded to the one
    character whose code point the hexadecimal digits give, a
    surrogate included; this is a statement about the decoded text
    that [main] hands to the runner, not about what the child can
    read of it. *)
Theorem hex_escapes_decoded :
  forall (ucd : pybytes -> option Z) (pre : pystr) (bs : pybytes)
         (post : pystr),
    ~ In BACKSLASH pre ->
    utf8_encode pre = Ok bs ->
    (forall h1 h2 a b,
        hexval h1 = Some a -> hexval h2 = Some b ->
        decode_input ucd (pre ++ [BACKSLASH; 120; h1; h2] ++ post)
        = rbind (decode_input ucd post)
                (fun d => Ok (bs ++ [a * 16 + b] ++ d)))
    /\ (forall h1 h2 h3 h4 a b c d,
           hexval h1 = Some a -> hexval h2 = Some b ->
           hexval h3 = Some c -> hexval h4 = Some d ->
           decode_input ucd (pre ++ [BACKSLASH; 117; h1; h2; h3; h4] ++ post)
           = rbind (decode_input ucd post)
                   (fun t => Ok (bs ++ [((a * 16 + b) * 16 + c) * 16 + d]
                                    ++ t))).
Proof.
  intros ucd pre bs post Hpre Hbs. split.
  - intros h1 h2 a b Ha Hb.
    apply decode_input_escape; try assumption.
    + destruct (hexval_bounds _ Ha), (hexval_bounds _ Hb).
      repeat (apply Forall_cons;
              [first [assumption | unfold is_ascii, BACKSLASH; lia]|]).
      apply Forall_nil.
    + intros rest. cbn [app]. rewrite (@decode_hex2 ucd h1 h2 a b rest Ha Hb).
      unfold cons_ok. destruct (unicode_escape_decode ucd rest); reflexivity.
  - intros h1 h2 h3 h4 a b c d Ha Hb Hc Hd.
    apply decode_input_escape; try assumption.
    + destruct (hexval_bounds _ Ha), (hexval_bounds _ Hb),
        (hexval_bounds _ Hc), (hexval_bounds _ Hd).
      repeat (apply Forall_cons;
              [first [assumption | unfold is_ascii, BACKSLASH; lia]|]).
      apply Forall_nil.
    + intros rest. cbn [app]. rewrite (@decode_hex4 ucd h1 h2 h3 h4 a b c d rest Ha Hb Hc Hd).
      unfold cons_ok. destruct (unicode_escape_decode ucd rest); reflexivity.
Qed.

Lemma hex_escapes_decoded_witness :
  decode_input (fun _ => None) (lit "caf\u00e9") = Ok (lit "caf" ++ [233]).
Proof.
  refine (proj2 (@hex_escapes_decoded (fun _ => None) (lit "caf") (lit "caf")
                   [] _ eq_refl) 48 48 101 57 0 0 14 9
            eq_refl eq_refl eq_refl eq_refl).
  intros [H|[H|[H|[]]]]; discriminate H.
Defined.

Lemma utf8_encode_char_nonneg c bs : utf8_encode_char c = Ok bs -> 0 <= c.
Proof.
  unfold utf8_encode_char. destruct (c <? 0) eqn:H; [discriminate|].
  intros _. now apply Z.ltb_ge in H.
Qed.

Lemma utf8_encode_nonneg s :
  forall bs, utf8_encode s = Ok bs -> Forall (fun c => 0 <= c) s.
Proof.
  induction s as [|c s IH]; intros bs H; [constructor|].
  apply utf8_encode_cons in H. destruct H as (b1 & b2 & H1 & H2 & _).
  constructor; [eapply utf8_encode_char_nonneg; eassumption | eauto].
Qed.

(** X13.  An input without a backslash reaches the child unchanged
    exactly when all its characters are ASCII. *)
Theorem plain_input_unchanged_iff_ascii :
  forall (ucd : pybytes -> option Z) (s : pystr),
    ~ In BACKSLASH s ->
    (decode_input ucd s = Ok s <-> Forall is_ascii s).
Proof.
  intros ucd s Hs. split.
  - intros Hdec.
    destruct (utf8_encode s) as [bs|e] eqn:He.
    2:{ unfold decode_input in Hdec. rewrite He in Hdec. discriminate. }
    rewrite (@decode_input_no_backslash ucd s bs Hs He) in Hdec.
    apply Ok_inj in Hdec. subst bs.
    pose proof (@utf8_encode_nonneg _ _ He) as Hnn.
    destruct (@utf8_encode_length _ _ He) as [_ Hlt].
    apply Forall_forall. intros c Hc. unfold is_ascii.
    rewrite Forall_forall in Hnn. specialize (Hnn c Hc).
    destruct (Z_lt_dec c 128) as [Hlt128|Hge]; [lia|].
    assert (List.length s < List.length s)%nat
      by (apply Hlt; exists c; split; [assumption|lia]).
    lia.
  - intros Ha. apply decode_input_no_backslash; [assumption|].
    now apply utf8_encode_ascii.
Qed.

Lemma plain_input_unchanged_iff_ascii_witness :
  decode_input (fun _ => None) (lit "hello world") = Ok (lit "hello world").
Proof.
  refine (proj2 (@plain_input_unchanged_iff_ascii (fun _ => None)
                   (lit "hello world") _) _).
  - cbn. intros H. repeat (destruct H as [H|H]; [discriminate H|]). exact H.
  - cbn. repeat (apply Forall_cons; [unfold is_ascii; lia|]).
    apply Forall_nil.
Defined.

Lemma lor_byte a b :
  0 <= a < 256 -> 0 <= b < 256 -> 0 <= Z.lor a b < 256.
Proof.
  intros Ha Hb. split; [apply Z.lor_nonneg; lia|].
  destruct (Z.eq_dec (Z.lor a b) 0) as [->|Hne]; [lia|].
  assert (Hpos : 0 < Z.lor a b)
    by (assert (0 <= Z.lor a b) by (apply Z.lor_nonneg; lia); lia).
  change 256 with (2 ^ 8). apply Z.log2_lt_pow2; [assumption|].
  rewrite Z.log2_lor by lia. apply Z.max_lub_lt.
  - destruct (Z.eq_dec a 0) as [->|?]; [reflexivity|].
    apply Z.log2_lt_pow2; [lia|]. change (2 ^ 8) with 256. lia.
  - destruct (Z.eq_dec b 0) as [->|?]; [reflexivity|].
    apply Z.log2_lt_pow2; [lia|]. change (2 ^ 8) with 256. lia.
Qed.

Lemma land63_byte x : 0 <= Z.land x 63 < 256.
Proof.
  change 63 with (Z.ones 6). rewrite Z.land_ones by lia.
  pose proof (Z.mod_pos_bound x (2 ^ 6) eq_refl) as H.
  change (2 ^ 6) with 64 in *. lia.
Qed.

Lemma shiftr_byte c n k :
  0 <= c -> 0 <= n -> c < k * 2 ^ n -> 0 < k <= 256 ->
  0 <= Z.shiftr c n < 256.
Proof.
  intros Hc Hn Hlt Hk. rewrite Z.shiftr_div_pow2 by assumption.
  assert (Hp : 0 < 2 ^ n) by (apply Z.pow_pos_nonneg; lia).
  split; [apply Z.div_pos; lia|].
  apply Z.lt_le_trans with k; [|lia].
  apply Z.div_lt_upper_bound; [assumption|]. lia.
Qed.

(** The encoder writes octets, at most four for a character. *)
Lemma utf8_encode_char_bytes c bs :
  utf8_encode_char c = Ok bs ->
  Forall (fun b => 0 <= b < 256) bs /\ (List.length bs <= 4)%nat.
Proof.
  unfold utf8_encode_char.
  destruct (c <? 0) eqn:H0; [discriminate|]. apply Z.ltb_ge in H0.
  destruct (c <? 128) eqn:H1.
  { intros H%Ok_inj. subst bs. apply Z.ltb_lt in H1.
    split; [|cbn; lia]. repeat constructor; lia. }
  destruct (c <? 2048) eqn:H2.
  { intros H%Ok_inj. subst bs. apply Z.ltb_lt in H2.
    split; [|cbn [List.length]; lia].
    repeat (apply Forall_cons; [apply lor_byte; try lia|]);
      try apply Forall_nil;
      first [ apply land63_byte
            | apply shiftr_byte with (k := 32); change (2 ^ 6) with 64; lia ]. }
  destruct (c <? 65536) eqn:H3.
  { destruct (is_surrogate c); [discriminate|].
    intros H%Ok_inj. subst bs. apply Z.ltb_lt in H3.
    split; [|cbn [List.length]; lia].
    repeat (apply Forall_cons; [apply lor_byte; try lia|]);
      try apply Forall_nil;
      first [ apply land63_byte
            | apply shiftr_byte with (k := 16); change (2 ^ 12) with 4096;
              lia ]. }
  destruct (c <=? MAX_UNICODE) eqn:H4; [|discriminate].
  intros H%Ok_inj. subst bs. apply Z.leb_le in H4. unfold MAX_UNICODE in H4.
  split; [|cbn [List.length]; lia].
  repeat (apply Forall_cons; [apply lor_byte; try lia|]);
    try apply Forall_nil;
    first [ apply land63_byte
          | apply shiftr_byte with (k := 5); change (2 ^ 18) with 262144;
            lia ].
Qed.

Lemma utf8_encode_bytes s :
  forall bs, utf8_encode s = Ok bs ->
    Forall (fun b => 0 <= b < 256) bs
    /\ (List.length bs <= 4 * List.length s)%nat.
Proof.
  induction s as [|c s IH]; intros bs H.
  - apply Ok_inj in H. subst bs. split; [constructor|cbn; lia].
  - apply utf8_encode_cons in H. destruct H as (b1 & b2 & H1 & H2 & ->).
    destruct (@utf8_encode_char_bytes _ _ H1) as [Hb1 Hl1].
    destruct (IH _ H2) as [Hb2 Hl2]. split.
    + apply Forall_app. now split.
    + rewrite length_app. cbn [List.length]. lia.
Qed.

(** X14.  From an input without a backslash the child gets only
    characters below U+0100, one for each byte of the UTF-8 encoding
    of the input: between once and four times as many characters as
    the input has. *)
Theorem plain_input_becomes_latin1 :
  forall (ucd : pybytes -> option Z) (s d : pystr),
    ~ In BACKSLASH s ->
    decode_input ucd s = Ok d ->
    utf8_encode s = Ok d
    /\ Forall (fun c => 0 <= c < 256) d
    /\ (List.length s <= List.length d <= 4 * List.length s)%nat.
Proof.
  intros ucd s d Hs Hdec.
  destruct (utf8_encode s) as [bs|e] eqn:He.
  2:{ unfold decode_input in Hdec. rewrite He in Hdec. discriminate. }
  rewrite (@decode_input_no_backslash ucd s bs Hs He) in Hdec.
  apply Ok_inj in Hdec. subst bs.
  destruct (@utf8_encode_bytes _ _ He) as [Hb Hl].
  destruct (@utf8_encode_length _ _ He) as [Hl' _].
  repeat split; assumption.
Qed.

Lemma plain_input_becomes_latin1_witness :
  utf8_encode [8364] = Ok [226; 130; 172]
  /\ Forall (fun c => 0 <= c < 256) [226; 130; 172].
Proof.
  assert (Hs : ~ In BACKSLASH [8364]) by (intros [H|[]]; discriminate H).
  destruct (@plain_input_becomes_latin1 (fun _ => None) [8364]
              [226; 130; 172] Hs eq_refl) as (He & Hb & _).
  split; assumption.
Defined.

(** X15.  An input that holds a surrogate code point, as the
    arguments of a process do for bytes that are no valid text,
    cannot be encoded: [main] ends with a [UnicodeEncodeError] before
    the child is spawned. *)
Theorem surrogate_input_aborts :
  forall (P : Platform) (E : SreEngine) (args : Namespace) (c : Z),
    In c (input args) ->
    is_surrogate c = true ->
    decode_input ucd_lookup (input args) = Raise UnicodeEncodeError
    /\ main args = ([], Raise UnicodeEncodeError)
    /\ spawned (main args) = [].
Proof.
  intros P E args c Hin Hsur.
  assert (Henc : utf8_encode (input args) = Raise UnicodeEncodeError).
  { revert Hin. generalize (input args) as s.
    induction s as [|x s IH]; intros Hin; [contradiction|].
    cbn [utf8_encode].
    assert (Hchar : forall y, utf8_encode_char y = Raise UnicodeEncodeError
                              \/ exists b, utf8_encode_char y = Ok b).
    { intros y. unfold utf8_encode_char.
      repeat match goal with
             | |- context [if ?b then _ else _] => destruct b
             end; eauto. }
    destruct Hin as [->|Hin].
    - assert (Hc : utf8_encode_char c = Raise UnicodeEncodeError).
      { unfold utf8_encode_char. unfold is_surrogate in Hsur.
        apply andb_true_iff in Hsur. destruct Hsur as [H1 H2].
        apply Z.leb_le in H1. apply Z.leb_le in H2.
        replace (c <? 0) with false by (symmetry; apply Z.ltb_ge; lia).
        replace (c <? 128) with false by (symmetry; apply Z.ltb_ge; lia).
        replace (c <? 2048) with false by (symmetry; apply Z.ltb_ge; lia).
        replace (c <? 65536) with true by (symmetry; apply Z.ltb_lt; lia).
        unfold is_surrogate.
        replace (55296 <=? c) with true by (symmetry; apply Z.leb_le; lia).
        replace (c <=? 57343) with true by (symmetry; apply Z.leb_le; lia).
        reflexivity. }
      rewrite Hc. reflexivity.
    - destruct (Hchar x) as [Hx|(b & Hx)]; rewrite Hx; [reflexivity|].
      cbn [rbind]. rewrite (IH Hin). reflexivity. }
  assert (Hdec : decode_input ucd_lookup (input args)
                 = Raise UnicodeEncodeError)
    by (unfold decode_input; now rewrite Henc).
  split; [assumption|]. rewrite (main_decode_fails _ Hdec). split; reflexivity.
Qed.

Lemma surrogate_input_aborts_witness :
  @main cat_child Fragment.engine
    (run_args cat_child (lit "2.0") [97; 56448] (lit "x") false)
  = ([], Raise UnicodeEncodeError).
Proof.
  exact (proj1 (proj2 (@surrogate_input_aborts cat_child Fragment.engine
    (run_args cat_child (lit "2.0") [97; 56448] (lit "x") false)
    56448 (or_intror (or_introl eq_refl)) eq_refl))).
Defined.

(** ** The runner and the reporter together *)

(** X16.  A command that does not exist is judged on an empty stdout.
    Without [--require-zero-exit] the run passes, with [PASS] printed
    and status 0, exactly when the pattern is found in the empty text;
    when it is not found, the report of the mismatch carries the line
    [Command not found: ...] as the captured stderr. *)
Theorem missing_command_judged_on_empty_stdout :
  forall (P : Platform) (E : SreEngine) (args : Namespace)
         (stdin_text msg : pystr),
    decode_input ucd_lookup (input args) = Ok stdin_text ->
    subprocess_run (cmd args) stdin_text (timeout args)
      = Raise (FileNotFoundError msg) ->
    require_zero_exit args = false ->
    snd (main args)
      = match stdout_matches (VStr []) (regex args) (main_flags args) with
        | Ok true => Ok 0
        | Ok false => Ok 1
        | Raise e => Raise e
        end
    /\ (stdout_matches (VStr []) (regex args) (main_flags args) = Ok true ->
        printed_out (main args)
        = (if verbose args then [[]] else []) ++ [lit "PASS"])
    /\ (stdout_matches (VStr []) (regex args) (main_flags args) = Ok false ->
        In (lit "Command not found: " ++ msg) (printed_err (main args))).
Proof.
  intros P E args stdin_text msg Hdec Hsub Hreq.
  pose proof (run_java_not_found _ _ _ Hsub) as Hrun.
  rewrite (main_after_run _ Hdec Hrun), Hreq.
  cbn [andb stdout stderr returncode]. split; [|split].
  - destruct (stdout_matches (VStr []) (regex args) (main_flags args))
      as [[|]|e]; reflexivity.
  - intros ->. rewrite printed_out_preamble. reflexivity.
  - intros ->. rewrite printed_err_preamble.
    unfold printed_err, mismatch_report.
    cbn [fst map flat_map app stdout stderr py_str].
    do 5 right. left. reflexivity.
Qed.

Lemma missing_command_judged_on_empty_stdout_witness :
  snd (@main missing_child Fragment.engine
         (run_args missing_child (lit "2.0") (lit "in") (lit "x*") false))
  = Ok 0.
Proof.
  exact (proj1 (@missing_command_judged_on_empty_stdout missing_child
    Fragment.engine
    (run_args missing_child (lit "2.0") (lit "in") (lit "x*") false)
    (lit "in") _ eq_refl eq_refl eq_refl)).
Defined.
